(** * LatentSync inference script: a shallow embedding of [scripts/inference.py]

    The script is straight-line glue code: a dependency bootstrap that runs
    when the module is imported, a [main] function that builds the lip-sync
    pipeline, invokes it once and then pipes the result through four
    external programs, and an argparse front end.

    Everything the script does to the outside world is recorded as an
    [event].  The functions below are state-passing programs over the set of
    paths that exist in the working directory; they return the events they
    produced, the new path set and either a value or the exception that
    ended them.

    What the model takes from outside the text of the script is gathered in
    the record [World]: the outcome of [import gfpgan], the result of every
    external command, the CUDA and xformers queries, the interpreter path
    and the contents of configuration files.

    What [main] does with its own inputs is modelled in full: the
    comparison of the configured dimension, the test of the seed and the
    range of seeds that [set_seed] takes, the paths and command lines it
    builds, the strict decoding of captured stderr.  The machine is assumed
    to be in working order, and the statements below are to be read under
    these assumptions:
    - calls into torch, diffusers, omegaconf and latentsync are opaque and
      return: the model records the call with its arguments and continues;
    - [print] succeeds, whatever the text;
    - every external program can be started and exits;
    - a name that [os.path.exists] does not find is free, so [os.makedirs]
      after the guard succeeds (no dangling link, nothing created behind
      the script's back);
    - the path set changes through [os.makedirs] only: what the pipeline
      and the external programs write is not tracked. *)

From Stdlib Require Import ZArith QArith_base String Ascii List Lia.
From Stdlib.Strings Require Import Byte.
From stdpp Require Import base option list gmap strings.

Local Open Scope string_scope.
Local Open Scope list_scope.
Local Open Scope Z_scope.

(** ** Python values that reach the script *)

(** A Python float.  The script never computes with floats: it only stores
    and forwards them, so a finite float is represented by the rational
    number it denotes. *)
Inductive pyfloat : Type :=
| FloatOfQ (q : Q)
| FloatInf (negative : bool)
| FloatNaN.

(** The scalar a YAML configuration field can hold. *)
Inductive pyval : Type :=
| PInt (z : Z)
| PFloat (f : pyfloat)
| PStr (s : string)
| PBool (b : bool)
| PNone.

(** [v == n] for an integer literal [n], as Python evaluates it: numbers are
    compared by value across [int], [bool] and [float]; a string or [None]
    is never equal to a number. *)
Definition py_eq_int (v : pyval) (n : Z) : bool :=
  match v with
  | PInt z => z =? n
  | PBool b => Z.b2z b =? n
  | PFloat (FloatOfQ q) => Qeq_bool q (inject_Z n)
  | PFloat _ => false
  | PStr _ => false
  | PNone => false
  end.

Inductive dtype : Type := float16 | float32.

(** The fields of the OmegaConf object that [main] reads. *)
Record Config : Type := {
  model_cross_attention_dim : pyval;
  data_num_frames : pyval;
  data_resolution : pyval
}.

(** The argparse namespace. *)
Record Args : Type := {
  unet_config_path : string;
  inference_ckpt_path : string;
  video_path : string;
  audio_path : string;
  video_out_path : string;
  inference_steps : Z;
  guidance_scale : pyfloat;
  seed : Z
}.

(** ** Exceptions, external processes, events *)

Inductive exn : Type :=
| NotImplementedError (msg : string)
| CalledProcessError (returncode : Z) (cmd : list string)
| UnicodeDecodeError
| FileExistsError (path : string)
| ValueError (msg : string)
| SystemExit (code : Z).

(** What [subprocess.run] hands back with both pipes captured. *)
Record CompletedProcess : Type := {
  returncode : Z;
  stdout : list byte;
  stderr : list byte
}.

(** The keyword arguments of the single pipeline invocation. *)
Record PipelineCall : Type := {
  call_video_path : string;
  call_audio_path : string;
  call_video_out_path : string;
  call_video_mask_path : string;
  call_num_frames : pyval;
  call_num_inference_steps : Z;
  call_guidance_scale : pyfloat;
  call_weight_dtype : dtype;
  call_width : pyval;
  call_height : pyval
}.

Inductive event : Type :=
| Print (s : string)
| PrintDecoded (text : list N)
| PrintInitialSeed
| Spawn (cmd : list string)
| Exited (cmd : list string) (rc : Z)
| Makedirs (path : string)
| SchedulerFromPretrained (path : string)
| Audio2FeatureInit (model_path device : string) (num_frames : pyval)
| VaeFromPretrained (name : string) (d : dtype)
| VaeSetScalingFactor (f : pyfloat)
| VaeSetShiftFactor (z : Z)
| UNetFromPretrained (cross_attention_dim : pyval) (ckpt device : string)
| UNetToDtype (d : dtype)
| UNetEnableXformers
| LipsyncPipelineInit
| PipelineToDevice (device : string)
| SetSeed (s : Z)
| TorchSeed
| PipelineInvoked (c : PipelineCall)
| OmegaConfLoad (path : string).

(** ** The environment *)

Record World : Type := {
  cuda_is_available : bool;
  cuda_capability_major : Z;
  xformers_available : bool;
  sys_executable : string;
  (** [import gfpgan] succeeds; otherwise it raises [ImportError]. *)
  gfpgan_importable : bool;
  (** The completed process of an external command. *)
  exec : list string -> CompletedProcess;
  (** [OmegaConf.load]. *)
  omegaconf_load : string -> Config
}.

(** ** The monad: events written, path set threaded, exceptions propagated *)

Inductive result (A : Type) : Type :=
| Ok (a : A)
| Raise (e : exn).
Arguments Ok {A} a.
Arguments Raise {A} e.

Record run (A : Type) : Type := Run {
  trace : list event;
  fs_out : gset string;
  res : result A
}.
Arguments Run {A} _ _ _.
Arguments trace {A} _.
Arguments fs_out {A} _.
Arguments res {A} _.

Definition M (A : Type) : Type := gset string -> run A.

Definition ret {A} (a : A) : M A := fun fs => Run [] fs (Ok a).

Definition bind {A B} (m : M A) (k : A -> M B) : M B := fun fs =>
  let r := m fs in
  match res r with
  | Ok a => let r' := k a (fs_out r) in
            Run (trace r ++ trace r') (fs_out r') (res r')
  | Raise e => Run (trace r) (fs_out r) (Raise e)
  end.

Definition raise {A} (e : exn) : M A := fun fs => Run [] fs (Raise e).

Definition emit (e : event) : M unit := fun fs => Run [e] fs (Ok tt).

Declare Scope script_scope.
Delimit Scope script_scope with script.
Notation "x <- c ;; k" := (bind c (fun x => k))
  (at level 100, c at next level, right associativity) : script_scope.
Notation "c ;; k" := (bind c (fun _ => k))
  (at level 100, right associativity) : script_scope.
Local Open Scope script_scope.

(** ** Library functions the script calls on its own data *)

(** [os.path.exists] and [os.makedirs] on a one-component relative path.
    [os.makedirs] without [exist_ok] raises when the path is there. *)
Definition path_exists (p : string) : M bool := fun fs =>
  Run [] fs (Ok (bool_decide (p ∈ fs))).

Definition makedirs (p : string) : M unit := fun fs =>
  if bool_decide (p ∈ fs) then Run [] fs (Raise (FileExistsError p))
  else Run [Makedirs p] ({[p]} ∪ fs) (Ok tt).

(** [os.path.join] of two components (POSIX). *)
Definition os_path_join (a b : string) : string :=
  if String.prefix "/" b then b
  else if (a =? "")%string then b
  else if String.prefix "/" (String.substring (String.length a - 1)%nat 1 a)
       then a +:+ b
       else a +:+ "/" +:+ b.

(** [str.replace(old, new)]: every non-overlapping occurrence of [old],
    found left to right, is replaced.  [skip] counts the characters of a
    match that are still to be dropped. *)
Fixpoint replace_from (old new : string) (skip : nat) (s : string) : string :=
  match s with
  | EmptyString => EmptyString
  | String c s' =>
      match skip with
      | S k => replace_from old new k s'
      | O => if String.prefix old s
             then new +:+ replace_from old new (String.length old - 1)%nat s'
             else String c (replace_from old new 0 s')
      end
  end.

Fixpoint intersperse_all (new s : string) : string :=
  match s with
  | EmptyString => new
  | String c s' => new +:+ String c (intersperse_all new s')
  end.

Definition str_replace (s old new : string) : string :=
  match old with
  | EmptyString => intersperse_all new s
  | _ => replace_from old new 0 s
  end.

(** [bytes.decode("utf-8")] with the default strict error handler: the
    code points of a well-formed UTF-8 byte string, [None] where Python
    raises [UnicodeDecodeError] (a stray continuation byte, a truncated or
    overlong sequence, a surrogate, a value above U+10FFFF). *)
Definition continuation (b : N) : bool := ((0x80 <=? b) && (b <=? 0xBF))%N.

Definition low6 (b : N) : N := N.land b 0x3F.

Fixpoint utf8_decode (bs : list byte) : option (list N) :=
  match bs with
  | [] => Some []
  | c0 :: r0 =>
    let b0 := Byte.to_N c0 in
    if (b0 <? 0x80)%N then cons b0 <$> utf8_decode r0
    else if ((0xC2 <=? b0) && (b0 <=? 0xDF))%N then
      match r0 with
      | c1 :: r1 =>
        let b1 := Byte.to_N c1 in
        if continuation b1
        then cons (N.lor (N.shiftl (N.land b0 0x1F) 6) (low6 b1)) <$> utf8_decode r1
        else None
      | _ => None
      end
    else if ((0xE0 <=? b0) && (b0 <=? 0xEF))%N then
      match r0 with
      | c1 :: c2 :: r2 =>
        let b1 := Byte.to_N c1 in
        let b2 := Byte.to_N c2 in
        if continuation b1 && continuation b2
           && negb ((b0 =? 0xE0) && (b1 <? 0xA0))%N
           && negb ((b0 =? 0xED) && (0x9F <? b1))%N
        then cons (N.lor (N.shiftl (N.land b0 0x0F) 12)
                         (N.lor (N.shiftl (low6 b1) 6) (low6 b2)))
               <$> utf8_decode r2
        else None
      | _ => None
      end
    else if ((0xF0 <=? b0) && (b0 <=? 0xF4))%N then
      match r0 with
      | c1 :: c2 :: c3 :: r3 =>
        let b1 := Byte.to_N c1 in
        let b2 := Byte.to_N c2 in
        let b3 := Byte.to_N c3 in
        if continuation b1 && continuation b2 && continuation b3
           && negb ((b0 =? 0xF0) && (b1 <? 0x90))%N
           && negb ((b0 =? 0xF4) && (0x8F <? b1))%N
        then cons (N.lor (N.shiftl (N.land b0 0x07) 18)
                         (N.lor (N.shiftl (low6 b1) 12)
                                (N.lor (N.shiftl (low6 b2) 6) (low6 b3))))
               <$> utf8_decode r3
        else None
      | _ => None
      end
    else None
  end.

Definition decode_utf8 (bs : list byte) : M (list N) :=
  match utf8_decode bs with
  | Some text => ret text
  | None => raise UnicodeDecodeError
  end.

(** [accelerate.utils.set_seed(seed)] seeds [random], numpy and torch with
    the same integer.  numpy takes a seed from 0 to 2**32 - 1 only and
    raises [ValueError] for every other integer; the event [SetSeed] stands
    for a call that has returned. *)
Definition seed_in_range (s : Z) : bool := (0 <=? s) && (s <? 2 ^ 32).

Definition set_seed (s : Z) : M unit :=
  if seed_in_range s then emit (SetSeed s)
  else raise (ValueError "Seed must be between 0 and 2**32 - 1").

(** ** The script *)

Section Script.

Variable w : World.

(** [subprocess.run(cmd, stdout=PIPE, stderr=PIPE)]: the child is started
    and waited for; any exit code is handed back to the caller. *)
Definition subprocess_run (cmd : list string) : M CompletedProcess :=
  emit (Spawn cmd) ;;
  emit (Exited cmd (returncode (exec w cmd))) ;;
  ret (exec w cmd).

(** [subprocess.check_call(cmd)]: as above, output not captured, and a
    non-zero exit code raises [CalledProcessError]. *)
Definition check_call (cmd : list string) : M unit :=
  emit (Spawn cmd) ;;
  emit (Exited cmd (returncode (exec w cmd))) ;;
  if returncode (exec w cmd) =? 0 then ret tt
  else raise (CalledProcessError (returncode (exec w cmd)) cmd).

(** Lines 30-31. *)
Definition install_package (package_name : string) : M unit :=
  check_call [sys_executable w; "-m"; "pip"; "install"; package_name].

(** Lines 33-38: check if GFPGAN is installed, and install it if not. *)
Definition check_gfpgan : M unit :=
  if gfpgan_importable w then ret tt
  else
    emit (Print "GFPGAN not found. Installing...") ;;
    install_package "gfpgan".

(** Lines 40-45: check if the CodeFormer directory exists; if not, clone
    it and install its dependencies. *)
Definition check_codeformer : M unit :=
  present <- path_exists "CodeFormer" ;;
  if negb present then
    emit (Print "CodeFormer repository not found. Cloning...") ;;
    check_call ["git"; "clone"; "https://github.com/sczhou/CodeFormer.git"] ;;
    emit (Print "Installing CodeFormer dependencies...") ;;
    check_call [sys_executable w; "-m"; "pip"; "install"; "-r";
                "CodeFormer/requirements.txt"]
  else ret tt.

(** Lines 33-45, executed when the module is imported. *)
Definition bootstrap : M unit :=
  check_gfpgan ;;
  check_codeformer.

(** The guard written three times in [main] (lines 122-123, 146-147 and
    167-168): [if not os.path.exists(d): os.makedirs(d)]. *)
Definition ensure_dir (d : string) : M unit :=
  present <- path_exists d ;;
  if negb present then makedirs d else ret tt.

(** The check written after each of the four [subprocess.run] calls
    (lines 137-141, 157-161, 178-182 and 198-202). *)
Definition report (r : CompletedProcess) (success failure : string) : M unit :=
  if returncode r =? 0 then emit (Print success)
  else
    emit (Print failure) ;;
    text <- decode_utf8 (stderr r) ;;
    emit (PrintDecoded text).

(** Lines 67-72: [None] stands for the [raise]. *)
Definition whisper_model_path (cfg : Config) : option string :=
  if py_eq_int (model_cross_attention_dim cfg) 768
  then Some "checkpoints/whisper/small.pt"
  else if py_eq_int (model_cross_attention_dim cfg) 384
  then Some "checkpoints/whisper/tiny.pt"
  else None.

Definition frames_dir : string := "temp_frames".
Definition enhanced_frames_dir : string := "enhanced_frames".
Definition final_frames_dir : string := "final_frames".
Definition final_video_path : string := "final_video.mp4".

Definition extract_command (args : Args) : list string :=
  ["ffmpeg"; "-i"; video_out_path args;
   os_path_join frames_dir "frame_%04d.png"].

Definition gfpgan_command : list string :=
  ["python"; "-m"; "gfpgan";
   "--input-path"; frames_dir;
   "--output-path"; enhanced_frames_dir;
   "--version"; "1.3"].

Definition codeformer_command : list string :=
  ["python"; "CodeFormer/inference_codeformer.py";
   "--input_path"; enhanced_frames_dir;
   "--output_path"; final_frames_dir;
   "--face_upsample"].

Definition encode_command : list string :=
  ["ffmpeg"; "-r"; "25";
   "-i"; os_path_join final_frames_dir "frame_%04d.png";
   "-vcodec"; "libx264";
   "-crf"; "18";
   "-pix_fmt"; "yuv420p";
   final_video_path].

(** Lines 120-141: frame extraction. *)
Definition extract_frames (args : Args) : M unit :=
  ensure_dir frames_dir ;;
  emit (Print "Extracting frames from the generated video...") ;;
  result <- subprocess_run (extract_command args) ;;
  report result
    ("Frames successfully extracted to '" +:+ frames_dir +:+ "' folder.")
    "Error during frame extraction:".

(** Lines 144-161: GFPGAN enhancement. *)
Definition enhance_frames : M unit :=
  ensure_dir enhanced_frames_dir ;;
  emit (Print "Enhancing frames with GFPGAN...") ;;
  result <- subprocess_run gfpgan_command ;;
  report result
    ("Frames successfully enhanced by GFPGAN and stored in '"
       +:+ enhanced_frames_dir +:+ "'.")
    "Error during GFPGAN enhancement:".

(** Lines 165-182: CodeFormer refinement. *)
Definition refine_frames : M unit :=
  ensure_dir final_frames_dir ;;
  emit (Print "Refining frames with CodeFormer...") ;;
  result <- subprocess_run codeformer_command ;;
  report result
    ("Frames successfully refined by CodeFormer and stored in '"
       +:+ final_frames_dir +:+ "'.")
    "Error during CodeFormer enhancement:".

(** Lines 185-202: re-encoding. *)
Definition reassemble_video : M unit :=
  emit (Print "Reassembling final frames into a video...") ;;
  result <- subprocess_run encode_command ;;
  report result
    ("Final video successfully created: " +:+ final_video_path)
    "Error during video assembly:".

(** Lines 120-202, the four steps in the order of the text. *)
Definition postprocess (args : Args) : M unit :=
  extract_frames args ;;
  enhance_frames ;;
  refine_frames ;;
  reassemble_video.

(** Lines 58-59. *)
Definition select_dtype : dtype :=
  if cuda_is_available w && (7 <? cuda_capability_major w)
  then float16 else float32.

(** Lines 106-117. *)
Definition pipeline_call (config : Config) (args : Args) : PipelineCall :=
  {| call_video_path := video_path args;
     call_audio_path := audio_path args;
     call_video_out_path := video_out_path args;
     call_video_mask_path := str_replace (video_out_path args) ".mp4" "_mask.mp4";
     call_num_frames := data_num_frames config;
     call_num_inference_steps := inference_steps args;
     call_guidance_scale := guidance_scale args;
     call_weight_dtype := select_dtype;
     call_width := data_resolution config;
     call_height := data_resolution config |}.

(** Lines 56-202. *)
Definition main (config : Config) (args : Args) : M unit :=
  let dtype := select_dtype in
  emit (Print ("Input video path: " +:+ video_path args)) ;;
  emit (Print ("Input audio path: " +:+ audio_path args)) ;;
  emit (Print ("Loaded checkpoint path: " +:+ inference_ckpt_path args)) ;;
  emit (SchedulerFromPretrained "configs") ;;
  whisper <- match whisper_model_path config with
             | Some p => ret p
             | None => raise (NotImplementedError
                                "cross_attention_dim must be 768 or 384")
             end ;;
  emit (Audio2FeatureInit whisper "cuda" (data_num_frames config)) ;;
  emit (VaeFromPretrained "stabilityai/sd-vae-ft-mse" dtype) ;;
  emit (VaeSetScalingFactor (FloatOfQ (18215 # 100000))) ;;
  emit (VaeSetShiftFactor 0) ;;
  emit (UNetFromPretrained (model_cross_attention_dim config)
          (inference_ckpt_path args) "cpu") ;;
  emit (UNetToDtype dtype) ;;
  (if xformers_available w then emit UNetEnableXformers else ret tt) ;;
  emit LipsyncPipelineInit ;;
  emit (PipelineToDevice "cuda") ;;
  (if negb (seed args =? -1) then set_seed (seed args)
   else emit TorchSeed) ;;
  emit PrintInitialSeed ;;
  emit (PipelineInvoked (pipeline_call config args)) ;;
  postprocess args.

End Script.

(** ** The command line (lines 209-223) *)

Inductive arg_type : Type := type_str | type_int | type_float.

(** One [parser.add_argument] call.  [default] is [PNone] where the call
    gives none. *)
Record Argument : Type := {
  option_string : string;
  type_ : arg_type;
  required : bool;
  default : pyval
}.

Definition parser : list Argument :=
  [ {| option_string := "--unet_config_path"; type_ := type_str;
       required := false; default := PStr "configs/unet.yaml" |};
    {| option_string := "--inference_ckpt_path"; type_ := type_str;
       required := true; default := PNone |};
    {| option_string := "--video_path"; type_ := type_str;
       required := true; default := PNone |};
    {| option_string := "--audio_path"; type_ := type_str;
       required := true; default := PNone |};
    {| option_string := "--video_out_path"; type_ := type_str;
       required := true; default := PNone |};
    {| option_string := "--inference_steps"; type_ := type_int;
       required := false; default := PInt 20 |};
    {| option_string := "--guidance_scale"; type_ := type_float;
       required := false; default := PFloat (FloatOfQ 1) |};
    {| option_string := "--seed"; type_ := type_int;
       required := false; default := PInt 1247 |} ].

(** argparse derives the attribute name from the option string:
    [option_string.lstrip('-').replace('-', '_')]. *)
Fixpoint lstrip_dash (s : string) : string :=
  match s with
  | String "-" s' => lstrip_dash s'
  | _ => s
  end.

Definition dest (a : Argument) : string :=
  str_replace (lstrip_dash (option_string a)) "-" "_".

Section Argparse.

(** The builtins [int] and [float] applied to a command-line word: [None]
    where they raise [ValueError]. *)
Variable py_int : string -> option Z.
Variable py_float : string -> option pyfloat.

Definition convert (t : arg_type) (word : string) : option pyval :=
  match t with
  | type_str => Some (PStr word)
  | type_int => PInt <$> py_int word
  | type_float => PFloat <$> py_float word
  end.

Definition find_argument (opt : string) : option Argument :=
  List.find (fun a => String.eqb (option_string a) opt) parser.

(** The namespace before any option is read: every attribute at its
    default. *)
Definition initial_namespace : gmap string pyval :=
  foldr (fun a ns => <[dest a := default a]> ns) ∅ parser.

(** The command line is taken as the list of (option, value) pairs that
    argparse's scanner extracts from [sys.argv], with abbreviations and the
    [--opt=value] spelling already resolved; [-h] is not modelled.  [None]
    is the call to [parser.error]: an option that was not declared, or a
    value its [type] rejects.  A repeated option overwrites the earlier
    value. *)
Fixpoint consume (argv : list (string * string)) (ns : gmap string pyval)
  : option (gmap string pyval) :=
  match argv with
  | [] => Some ns
  | (opt, word) :: rest =>
      match find_argument opt with
      | None => None
      | Some a =>
          match convert (type_ a) word with
          | None => None
          | Some v => consume rest (<[dest a := v]> ns)
          end
      end
  end.

Definition seen (argv : list (string * string)) (a : Argument) : bool :=
  bool_decide (option_string a ∈ argv.*1).

(** [parser.parse_args()]: [parser.error] exits with status 2. *)
Definition parse_args (argv : list (string * string))
  : result (gmap string pyval) :=
  match consume argv initial_namespace with
  | None => Raise (SystemExit 2)
  | Some ns =>
      if forallb (fun a => negb (required a) || seen argv a) parser
      then Ok ns
      else Raise (SystemExit 2)
  end.

(** Reading the attributes [main] uses off the namespace. *)
Definition namespace_args (ns : gmap string pyval) : option Args :=
  match ns !! "unet_config_path", ns !! "inference_ckpt_path",
        ns !! "video_path", ns !! "audio_path", ns !! "video_out_path",
        ns !! "inference_steps", ns !! "guidance_scale", ns !! "seed" with
  | Some (PStr cfg), Some (PStr ckpt), Some (PStr video), Some (PStr audio),
    Some (PStr out), Some (PInt steps), Some (PFloat scale), Some (PInt s) =>
      Some {| unet_config_path := cfg; inference_ckpt_path := ckpt;
              video_path := video; audio_path := audio;
              video_out_path := out; inference_steps := steps;
              guidance_scale := scale; seed := s |}
  | _, _, _, _, _, _, _, _ => None
  end.

Variable w : World.

Definition lift {A} (r : result A) : M A := fun fs => Run [] fs r.

(** The whole module: the bootstrap runs on import; the block under
    [if __name__ == "__main__"] runs when the file is the program.  The
    branch for a namespace without the attributes of [Args] is dead code of
    the model: [parse_args] never returns such a namespace. *)
Definition script (is_main : bool) (argv : list (string * string)) : M unit :=
  bootstrap w ;;
  if is_main then
    ns <- lift (parse_args argv) ;;
    match namespace_args ns with
    | Some args =>
        emit (OmegaConfLoad (unet_config_path args)) ;;
        main w (omegaconf_load w (unet_config_path args)) args
    | None => raise (SystemExit 2)
    end
  else ret tt.

End Argparse.

(** ** Observations on runs *)

(** The configuration passes the test of lines 67-72. *)
Definition supported (cfg : Config) : bool :=
  py_eq_int (model_cross_attention_dim cfg) 768
  || py_eq_int (model_cross_attention_dim cfg) 384.

(** The seed passes lines 99-102: it is -1, which asks for a random seed,
    or a seed that [set_seed] takes. *)
Definition seed_accepted (args : Args) : bool :=
  (seed args =? -1) || seed_in_range (seed args).

(** The calls that read model weights: the whisper checkpoint of the audio
    encoder, the VAE and the U-Net checkpoint.  [DDIMScheduler.from_pretrained]
    reads a scheduler configuration, not a model. *)
Definition loads_model (e : event) : bool :=
  match e with
  | Audio2FeatureInit _ _ _ | VaeFromPretrained _ _ | UNetFromPretrained _ _ _ => true
  | _ => false
  end.

Definition is_process_event (e : event) : bool :=
  match e with
  | Spawn _ | Exited _ _ => true
  | _ => false
  end.

Definition process_events (t : list event) : list event :=
  List.filter is_process_event t.

(** The commands started, in order. *)
Fixpoint spawned (t : list event) : list (list string) :=
  match t with
  | [] => []
  | Spawn cmd :: t' => cmd :: spawned t'
  | _ :: t' => spawned t'
  end.

(** The directories created, in order. *)
Fixpoint created (t : list event) : list string :=
  match t with
  | [] => []
  | Makedirs d :: t' => d :: created t'
  | _ :: t' => created t'
  end.

(** Every process started is waited for before anything else happens: a
    [Spawn] is directly followed by the [Exited] of the same command, and
    nothing exits that was not started.  [pending] is the process being
    waited for. *)
Fixpoint blocking_from (pending : option (list string)) (t : list event) : bool :=
  match t with
  | [] => bool_decide (pending = None)
  | e :: t' =>
      match pending, e with
      | None, Spawn cmd => blocking_from (Some cmd) t'
      | None, Exited _ _ => false
      | None, _ => blocking_from None t'
      | Some cmd, Exited cmd' _ => bool_decide (cmd = cmd') && blocking_from None t'
      | Some _, _ => false
      end
  end.

Definition blocking (t : list event) : bool := blocking_from None t.

(** The events of the post-processing part of [main]. *)
Definition is_postprocess_event (e : event) : bool :=
  match e with
  | Print _ | PrintDecoded _ | Spawn _ | Exited _ _ | Makedirs _ => true
  | _ => false
  end.

(** One external program run to completion in world [w]. *)
Definition stage_events (w : World) (cmd : list string) : list event :=
  [Spawn cmd; Exited cmd (returncode (exec w cmd))].

(** The four post-processing invocations in the order of the text. *)
Definition four_stages (w : World) (args : Args) : list event :=
  stage_events w (extract_command args)
  ++ stage_events w gfpgan_command
  ++ stage_events w codeformer_command
  ++ stage_events w encode_command.

(** The check after a stage goes through: the stage succeeded, or its
    captured stderr is well-formed UTF-8 and can be printed. *)
Definition reported (r : CompletedProcess) : bool :=
  (returncode r =? 0) || bool_decide (is_Some (utf8_decode (stderr r))).

Definition is_seed_event (e : event) : bool :=
  match e with
  | SetSeed _ | TorchSeed => true
  | _ => false
  end.

Definition is_invocation (e : event) : bool :=
  match e with
  | PipelineInvoked _ => true
  | _ => false
  end.

(** The three shell-outs of the bootstrap. *)
Definition pip_install_gfpgan (w : World) : list string :=
  [sys_executable w; "-m"; "pip"; "install"; "gfpgan"].

Definition git_clone_codeformer : list string :=
  ["git"; "clone"; "https://github.com/sczhou/CodeFormer.git"].

Definition pip_install_requirements (w : World) : list string :=
  [sys_executable w; "-m"; "pip"; "install"; "-r"; "CodeFormer/requirements.txt"].

(** ** Closed forms *)

(** A post-processing step in closed form: the directory guard, the
    announcement, the process, the report. *)
Definition step_trace (w : World) (dirs : list string) (announce : string)
    (cmd : list string) (success failure : string) (fs : gset string)
  : list event :=
  flat_map (fun d => if bool_decide (d ∈ fs) then [] else [Makedirs d]) dirs
  ++ Print announce :: stage_events w cmd
  ++ (if returncode (exec w cmd) =? 0 then [Print success]
      else match utf8_decode (stderr (exec w cmd)) with
           | Some text => [Print failure; PrintDecoded text]
           | None => [Print failure]
           end).

(** How a step ends: the only thing that can go wrong is the decoding of
    the captured stderr. *)
Definition step_result (w : World) (cmd : list string) : result unit :=
  if reported (exec w cmd) then Ok tt else Raise UnicodeDecodeError.

(** [t] is the trace of a step over [cmd] guarded by [dirs], whatever its
    messages. *)
Definition step_of (w : World) (dirs : list string) (cmd : list string)
    (fs : gset string) (t : list event) : Prop :=
  exists announce success failure,
    t = step_trace w dirs announce cmd success failure fs.

(** What [main] has done when it comes to the seed (lines 56-97). *)
Definition setup (w : World) (cfg : Config) (args : Args) (path : string)
  : list event :=
  [Print ("Input video path: " +:+ video_path args);
   Print ("Input audio path: " +:+ audio_path args);
   Print ("Loaded checkpoint path: " +:+ inference_ckpt_path args);
   SchedulerFromPretrained "configs";
   Audio2FeatureInit path "cuda" (data_num_frames cfg);
   VaeFromPretrained "stabilityai/sd-vae-ft-mse" (select_dtype w);
   VaeSetScalingFactor (FloatOfQ (18215 # 100000));
   VaeSetShiftFactor 0;
   UNetFromPretrained (model_cross_attention_dim cfg)
     (inference_ckpt_path args) "cpu";
   UNetToDtype (select_dtype w)]
  ++ (if xformers_available w then [UNetEnableXformers] else [])
  ++ [LipsyncPipelineInit;
      PipelineToDevice "cuda"].

(** What [main] does between the dimension test and the invocation, the
    seed being accepted. *)
Definition prelude (w : World) (cfg : Config) (args : Args) (path : string)
  : list event :=
  setup w cfg args path
  ++ [if seed args =? -1 then TorchSeed else SetSeed (seed args);
      PrintInitialSeed].

(** What a [check_call] leaves behind. *)
Definition checked (w : World) (cmd : list string) : result unit :=
  if returncode (exec w cmd) =? 0 then Ok tt
  else Raise (CalledProcessError (returncode (exec w cmd)) cmd).

(** The one construction of the audio encoder. *)
Definition is_audio_encoder_init (e : event) : bool :=
  match e with
  | Audio2FeatureInit _ _ _ => true
  | _ => false
  end.

(** ** Typing of the namespace *)

(** [v] is a value that [type=t] yields. *)
Definition has_type (t : arg_type) (v : pyval) : Prop :=
  match t, v with
  | type_str, PStr _ | type_int, PInt _ | type_float, PFloat _ => True
  | _, _ => False
  end.

(** Every declared attribute is present, and holds either a converted
    command-line word or, if its option is not among [done], its default. *)
Definition well_typed (done : list string) (ns : gmap string pyval) : Prop :=
  forall a, In a parser ->
    exists v, ns !! dest a = Some v
              /\ (has_type (type_ a) v
                  \/ (v = default a /\ option_string a ∉ done)).

(** [c] occurs in [s]. *)
Fixpoint has_char (c : ascii) (s : string) : bool :=
  match s with
  | EmptyString => false
  | String c' s' => Ascii.eqb c c' || has_char c s'
  end.

(** ** Sample inputs *)

(** A process that succeeds without output, and one that fails. *)
Definition silent : CompletedProcess :=
  {| returncode := 0; stdout := []; stderr := [] |}.

Definition failed (rc : Z) (err : list byte) : CompletedProcess :=
  {| returncode := rc; stdout := []; stderr := err |}.

(** A configuration with the given cross-attention dimension. *)
Definition config_with (dim : pyval) : Config :=
  {| model_cross_attention_dim := dim;
     data_num_frames := PInt 16;
     data_resolution := PInt 256 |}.

(** A machine on which the command [failing] exits as [r] and everything else
    succeeds silently. *)
Definition world_where (importable : bool) (failing : list string)
    (r : CompletedProcess) : World :=
  {| cuda_is_available := true;
     cuda_capability_major := 8;
     xformers_available := false;
     sys_executable := "/usr/bin/python3";
     gfpgan_importable := importable;
     exec := fun cmd => if bool_decide (cmd = failing) then r else silent;
     omegaconf_load := fun _ => config_with (PInt 384) |}.

(** A machine on which everything is installed and every command
    succeeds. *)
Definition world_ok : World := world_where true [] silent.

Definition sample_args : Args :=
  {| unet_config_path := "configs/unet.yaml";
     inference_ckpt_path := "checkpoints/latentsync_unet.pt";
     video_path := "assets/demo.mp4";
     audio_path := "assets/demo.wav";
     video_out_path := "video_out.mp4";
     inference_steps := 20;
     guidance_scale := FloatOfQ 1;
     seed := 1247 |}.


Definition sample_argv : list (string * string) :=
  [("--inference_ckpt_path", "checkpoints/latentsync_unet.pt");
   ("--video_path", "assets/demo.mp4");
   ("--audio_path", "assets/demo.wav");
   ("--video_out_path", "video_out.mp4")].

(** The first step exits with status 1 and a stderr that is not UTF-8. *)
Definition world_undecodable : World :=
  world_where true (extract_command sample_args) (failed 1 [xff]).

(** The same with a stderr that is UTF-8 (the bytes of "é"). *)
Definition world_decodable : World :=
  world_where true (extract_command sample_args) (failed 1 [xc3; xa9]).

(** On this machine [gfpgan] is missing and pip exits with status 1. *)
Definition world_pip_fails : World :=
  world_where false ["/usr/bin/python3"; "-m"; "pip"; "install"; "gfpgan"]
    (failed 1 []).

(** ** Further observations *)

(** The shell-outs the bootstrap has to make in path set [fs], in the order
    of the text. *)
Definition bootstrap_plan (w : World) (fs : gset string) : list (list string) :=
  (if gfpgan_importable w then [] else [pip_install_gfpgan w])
  ++ (if bool_decide ("CodeFormer" ∈ fs) then []
      else [git_clone_codeformer; pip_install_requirements w]).

(** The commands of a list that get started when each is run with
    [check_call]: all up to and including the first that exits non-zero. *)
Fixpoint until_failure (w : World) (cmds : list (list string))
  : list (list string) :=
  match cmds with
  | [] => []
  | cmd :: rest =>
      if returncode (exec w cmd) =? 0 then cmd :: until_failure w rest
      else [cmd]
  end.

(** All four reports of the post-processing chain go through. *)
Definition all_reported (w : World) (args : Args) : bool :=
  reported (exec w (extract_command args))
  && reported (exec w gfpgan_command)
  && reported (exec w codeformer_command)
  && reported (exec w encode_command).

(** The dtype an event carries, if it carries one. *)
Definition event_dtype (e : event) : option dtype :=
  match e with
  | VaeFromPretrained _ d | UNetToDtype d => Some d
  | PipelineInvoked c => Some (call_weight_dtype c)
  | _ => None
  end.

(** The texts of captured stderr that a trace prints, in order. *)
Fixpoint decoded_texts (t : list event) : list (list N) :=
  match t with
  | [] => []
  | PrintDecoded text :: t' => text :: decoded_texts t'
  | _ :: t' => decoded_texts t'
  end.

(** What the report of [cmd] prints of its stderr: nothing when it exits
    with status 0, the decoded stderr otherwise. *)
Definition failure_text (w : World) (cmd : list string) : list (list N) :=
  if returncode (exec w cmd) =? 0 then []
  else match utf8_decode (stderr (exec w cmd)) with
       | Some text => [text]
       | None => []
       end.

(** Every command started in a trace, with the directories that the trace
    has created before starting it; [made] holds those created so far. *)
Fixpoint spawn_contexts (made : list string) (t : list event)
  : list (list string * list string) :=
  match t with
  | [] => []
  | Spawn cmd :: t' => (cmd, made) :: spawn_contexts made t'
  | Makedirs d :: t' => spawn_contexts (made ++ [d]) t'
  | _ :: t' => spawn_contexts made t'
  end.

(** The directories each tool is pointed at: frame extraction writes into
    [temp_frames], GFPGAN reads [temp_frames] and writes
    [enhanced_frames], CodeFormer reads [enhanced_frames] and writes
    [final_frames], the re-encoding reads [final_frames]. *)
Definition works_in (args : Args) : list (list string * string) :=
  [(extract_command args, frames_dir);
   (gfpgan_command, frames_dir);
   (gfpgan_command, enhanced_frames_dir);
   (codeformer_command, enhanced_frames_dir);
   (codeformer_command, final_frames_dir);
   (encode_command, final_frames_dir)].

(** Bytes below 0x80 only. *)
Definition ascii_only (bs : list byte) : bool :=
  forallb (fun b => (Byte.to_N b <? 0x80)%N) bs.

(** [old] occurs in [s] at some position. *)
Fixpoint occurs (old s : string) : bool :=
  match s with
  | EmptyString => String.prefix old EmptyString
  | String _ s' => String.prefix old s || occurs old s'
  end.

(** The number of replacements [replace_from] makes: the matches it finds
    while scanning from the left, characters of a match just replaced
    being skipped. *)
Fixpoint replacements_from (old : string) (skip : nat) (s : string) : nat :=
  match s with
  | EmptyString => O
  | String _ s' =>
      match skip with
      | S k => replacements_from old k s'
      | O => if String.prefix old s
             then S (replacements_from old (String.length old - 1) s')
             else replacements_from old 0 s'
      end
  end.

(** A Unicode scalar value: a code point up to U+10FFFF that is not a
    surrogate. *)
Definition scalar_value (cp : N) : Prop :=
  (cp < 0x110000 /\ ~ (0xD800 <= cp <= 0xDFFF))%N.

(** The command lines that the pair form stands for without loss: every
    option is one of the declared option strings, spelled in full, and
    every value is a word that argparse takes for an argument rather than
    for an option: it does not start with a dash, or it is a dash followed
    by digits only (a negative number, as in [--seed -1]). *)
Definition is_digit (c : ascii) : bool :=
  (48 <=? nat_of_ascii c)%nat && (nat_of_ascii c <=? 57)%nat.

Fixpoint all_digits (s : string) : bool :=
  match s with
  | EmptyString => true
  | String c s' => is_digit c && all_digits s'
  end.

Definition plain_word (s : string) : bool :=
  match s with
  | String "-" rest => all_digits rest
  | _ => true
  end.

Definition conventional (argv : list (string * string)) : bool :=
  forallb (fun p => match find_argument p.1 with
                    | Some _ => plain_word p.2
                    | None => false
                    end) argv.

(** ** Running the monad *)

(** [bind] unfolded once, and its two outcomes. *)
Lemma bind_run {A B} (m : M A) (k : A -> M B) (fs : gset string) :
  bind m k fs =
  match res (m fs) with
  | Ok a => Run (trace (m fs) ++ trace (k a (fs_out (m fs))))
                (fs_out (k a (fs_out (m fs)))) (res (k a (fs_out (m fs))))
  | Raise e => Run (trace (m fs)) (fs_out (m fs)) (Raise e)
  end.
Proof. reflexivity. Qed.

Lemma bind_ok {A B} (m : M A) (k : A -> M B) (fs fs' : gset string)
    (t : list event) (a : A) :
  m fs = Run t fs' (Ok a) ->
  bind m k fs = Run (t ++ trace (k a fs')) (fs_out (k a fs')) (res (k a fs')).
Proof. intros E. rewrite bind_run, E. reflexivity. Qed.

Lemma bind_raise {A B} (m : M A) (k : A -> M B) (fs fs' : gset string)
    (t : list event) (e : exn) :
  m fs = Run t fs' (Raise e) ->
  bind m k fs = Run t fs' (Raise e).
Proof. intros E. rewrite bind_run, E. reflexivity. Qed.

(** The primitives in closed form. *)
Lemma ensure_dir_run (d : string) (fs : gset string) :
  ensure_dir d fs =
  Run (if bool_decide (d ∈ fs) then [] else [Makedirs d]) ({[d]} ∪ fs) (Ok tt).
Proof.
  unfold ensure_dir, bind, path_exists, makedirs; simpl.
  case_bool_decide as Hd; simpl.
  - f_equal. symmetry. apply subseteq_union_1_L, singleton_subseteq_l, Hd.
  - rewrite bool_decide_eq_false_2 by assumption. reflexivity.
Qed.

Lemma subprocess_run_run (w : World) (cmd : list string) (fs : gset string) :
  subprocess_run w cmd fs = Run (stage_events w cmd) fs (Ok (exec w cmd)).
Proof. reflexivity. Qed.

Lemma check_call_run (w : World) (cmd : list string) (fs : gset string) :
  check_call w cmd fs =
  Run (stage_events w cmd) fs
      (if returncode (exec w cmd) =? 0 then Ok tt
       else Raise (CalledProcessError (returncode (exec w cmd)) cmd)).
Proof.
  unfold check_call, bind, emit; simpl.
  destruct (returncode (exec w cmd) =? 0); reflexivity.
Qed.

Lemma report_run (r : CompletedProcess) (success failure : string)
    (fs : gset string) :
  report r success failure fs =
  Run (if returncode r =? 0 then [Print success]
       else match utf8_decode (stderr r) with
            | Some text => [Print failure; PrintDecoded text]
            | None => [Print failure]
            end)
      fs
      (if reported r then Ok tt else Raise UnicodeDecodeError).
Proof.
  unfold report, reported, decode_utf8, bind, emit, ret, raise.
  destruct (returncode r =? 0); simpl; [reflexivity|].
  destruct (utf8_decode (stderr r)) as [text|]; simpl; reflexivity.
Qed.

(** The three guarded steps have the same shape and the same proof. *)
Ltac guarded_step :=
  do 3 eexists;
  rewrite bind_run, ensure_dir_run; cbn [res trace fs_out];
  rewrite bind_run; cbn [emit res trace fs_out];
  rewrite bind_run, subprocess_run_run; cbn [res trace fs_out];
  rewrite report_run; cbn [res trace fs_out];
  unfold step_trace, step_result; simpl flat_map;
  rewrite app_nil_r; reflexivity.

Lemma extract_frames_run (w : World) (args : Args) (fs : gset string) :
  exists announce success failure,
    extract_frames w args fs =
    Run (step_trace w [frames_dir] announce (extract_command args)
           success failure fs)
        ({[frames_dir]} ∪ fs) (step_result w (extract_command args)).
Proof. unfold extract_frames. guarded_step. Qed.

Lemma enhance_frames_run (w : World) (fs : gset string) :
  exists announce success failure,
    enhance_frames w fs =
    Run (step_trace w [enhanced_frames_dir] announce gfpgan_command
           success failure fs)
        ({[enhanced_frames_dir]} ∪ fs) (step_result w gfpgan_command).
Proof. unfold enhance_frames. guarded_step. Qed.

Lemma refine_frames_run (w : World) (fs : gset string) :
  exists announce success failure,
    refine_frames w fs =
    Run (step_trace w [final_frames_dir] announce codeformer_command
           success failure fs)
        ({[final_frames_dir]} ∪ fs) (step_result w codeformer_command).
Proof. unfold refine_frames. guarded_step. Qed.

Lemma reassemble_video_run (w : World) (fs : gset string) :
  exists announce success failure,
    reassemble_video w fs =
    Run (step_trace w [] announce encode_command success failure fs)
        fs (step_result w encode_command).
Proof.
  do 3 eexists. unfold reassemble_video.
  rewrite bind_run; cbn [emit res trace fs_out].
  rewrite bind_run, subprocess_run_run; cbn [res trace fs_out].
  rewrite report_run; cbn [res trace fs_out].
  reflexivity.
Qed.

(** ** Projections of traces *)

Lemma process_events_app (t1 t2 : list event) :
  process_events (t1 ++ t2) = process_events t1 ++ process_events t2.
Proof. apply List.filter_app. Qed.

Lemma created_app (t1 t2 : list event) :
  created (t1 ++ t2) = created t1 ++ created t2.
Proof.
  induction t1 as [|e t1 IH]; [reflexivity|].
  destruct e; simpl; rewrite ?IH; reflexivity.
Qed.

Lemma spawned_app (t1 t2 : list event) :
  spawned (t1 ++ t2) = spawned t1 ++ spawned t2.
Proof.
  induction t1 as [|e t1 IH]; [reflexivity|].
  destruct e; simpl; rewrite ?IH; reflexivity.
Qed.

Lemma blocking_from_app (t1 t2 : list event) :
  forall pending,
    blocking_from pending t1 = true ->
    blocking_from pending (t1 ++ t2) = blocking t2.
Proof.
  induction t1 as [|e t1 IH]; intros pending H; simpl in *.
  - apply bool_decide_eq_true_1 in H. subst pending. reflexivity.
  - destruct pending as [cmd|], e; try discriminate; auto.
    apply andb_true_iff in H as [Hc Ht].
    rewrite Hc; simpl. auto.
Qed.

Lemma blocking_app (t1 t2 : list event) :
  blocking t1 = true -> blocking t2 = true -> blocking (t1 ++ t2) = true.
Proof.
  intros H1 H2. unfold blocking at 1.
  rewrite (blocking_from_app _ _ _ H1). exact H2.
Qed.

Lemma filter_postprocess (P : event -> bool) (t : list event) :
  Forall (fun e => is_postprocess_event e = true) t ->
  (forall e, is_postprocess_event e = true -> P e = false) ->
  List.filter P t = [].
Proof.
  intros Ht HP. induction Ht as [|e t He _ IH]; [reflexivity|].
  simpl. rewrite (HP e He). exact IH.
Qed.

(** ** One step in closed form *)

Section Step.

Variables (w : World) (announce success failure : string).
Variables (cmd : list string) (fs : gset string).

Lemma guard_events_created (dirs : list string) :
  created (flat_map (fun d => if bool_decide (d ∈ fs) then [] else [Makedirs d]) dirs)
  = List.filter (fun d => negb (bool_decide (d ∈ fs))) dirs.
Proof.
  induction dirs as [|d dirs IH]; [reflexivity|]. simpl.
  destruct (bool_decide (d ∈ fs)); simpl; rewrite IH; reflexivity.
Qed.

Lemma guard_events_process (dirs : list string) :
  process_events
    (flat_map (fun d => if bool_decide (d ∈ fs) then [] else [Makedirs d]) dirs)
  = [].
Proof.
  induction dirs as [|d dirs IH]; [reflexivity|]. simpl.
  destruct (bool_decide (d ∈ fs)); simpl; exact IH.
Qed.

Lemma guard_events_blocking (dirs : list string) (t : list event) :
  blocking
    (flat_map (fun d => if bool_decide (d ∈ fs) then [] else [Makedirs d]) dirs
     ++ t)
  = blocking t.
Proof.
  induction dirs as [|d dirs IH]; [reflexivity|]. simpl.
  destruct (bool_decide (d ∈ fs)); simpl; exact IH.
Qed.

Lemma guard_events_postprocess (dirs : list string) :
  Forall (fun e => is_postprocess_event e = true)
    (flat_map (fun d => if bool_decide (d ∈ fs) then [] else [Makedirs d]) dirs).
Proof.
  induction dirs as [|d dirs IH]; simpl; [constructor|].
  destruct (bool_decide (d ∈ fs)); simpl; [exact IH|].
  constructor; [reflexivity | exact IH].
Qed.

Lemma step_process_events (dirs : list string) :
  process_events (step_trace w dirs announce cmd success failure fs)
  = stage_events w cmd.
Proof.
  unfold step_trace. rewrite process_events_app, guard_events_process.
  destruct (returncode (exec w cmd) =? 0); [reflexivity|].
  destruct (utf8_decode (stderr (exec w cmd))); reflexivity.
Qed.

Lemma step_created (dirs : list string) :
  created (step_trace w dirs announce cmd success failure fs)
  = List.filter (fun d => negb (bool_decide (d ∈ fs))) dirs.
Proof.
  unfold step_trace. rewrite created_app, guard_events_created.
  destruct (returncode (exec w cmd) =? 0);
    [|destruct (utf8_decode (stderr (exec w cmd)))];
    simpl; apply app_nil_r.
Qed.

Lemma step_blocking (dirs : list string) :
  blocking (step_trace w dirs announce cmd success failure fs) = true.
Proof.
  unfold step_trace. rewrite guard_events_blocking.
  unfold blocking; simpl. rewrite bool_decide_eq_true_2 by reflexivity.
  destruct (returncode (exec w cmd) =? 0);
    [|destruct (utf8_decode (stderr (exec w cmd)))]; reflexivity.
Qed.

Lemma step_postprocess_events (dirs : list string) :
  Forall (fun e => is_postprocess_event e = true)
    (step_trace w dirs announce cmd success failure fs).
Proof.
  unfold step_trace. apply Forall_app. split; [apply guard_events_postprocess|].
  destruct (returncode (exec w cmd) =? 0);
    [|destruct (utf8_decode (stderr (exec w cmd)))];
    repeat constructor.
Qed.

End Step.

Lemma step_of_process_events w dirs cmd fs t :
  step_of w dirs cmd fs t -> process_events t = stage_events w cmd.
Proof. intros (a & s & f & ->). apply step_process_events. Qed.

Lemma step_of_created w dirs cmd fs t :
  step_of w dirs cmd fs t ->
  created t = List.filter (fun d => negb (bool_decide (d ∈ fs))) dirs.
Proof. intros (a & s & f & ->). apply step_created. Qed.

Lemma step_of_blocking w dirs cmd fs t :
  step_of w dirs cmd fs t -> blocking t = true.
Proof. intros (a & s & f & ->). apply step_blocking. Qed.

Lemma step_of_postprocess_events w dirs cmd fs t :
  step_of w dirs cmd fs t -> Forall (fun e => is_postprocess_event e = true) t.
Proof. intros (a & s & f & ->). apply step_postprocess_events. Qed.

(** ** The post-processing chain in closed form *)

Lemma postprocess_run (w : World) (args : Args) (fs : gset string) :
  exists t1 t2 t3 t4,
    step_of w [frames_dir] (extract_command args) fs t1
    /\ step_of w [enhanced_frames_dir] gfpgan_command ({[frames_dir]} ∪ fs) t2
    /\ step_of w [final_frames_dir] codeformer_command
         ({[enhanced_frames_dir]} ∪ ({[frames_dir]} ∪ fs)) t3
    /\ step_of w [] encode_command
         ({[final_frames_dir]} ∪ ({[enhanced_frames_dir]} ∪ ({[frames_dir]} ∪ fs))) t4
    /\ postprocess w args fs =
       if reported (exec w (extract_command args)) then
         if reported (exec w gfpgan_command) then
           if reported (exec w codeformer_command) then
             Run (t1 ++ t2 ++ t3 ++ t4)
               ({[final_frames_dir]} ∪ ({[enhanced_frames_dir]} ∪ ({[frames_dir]} ∪ fs)))
               (step_result w encode_command)
           else
             Run (t1 ++ t2 ++ t3)
               ({[final_frames_dir]} ∪ ({[enhanced_frames_dir]} ∪ ({[frames_dir]} ∪ fs)))
               (Raise UnicodeDecodeError)
         else
           Run (t1 ++ t2) ({[enhanced_frames_dir]} ∪ ({[frames_dir]} ∪ fs))
             (Raise UnicodeDecodeError)
       else Run t1 ({[frames_dir]} ∪ fs) (Raise UnicodeDecodeError).
Proof.
  destruct (extract_frames_run w args fs) as (a1 & s1 & f1 & E1).
  destruct (enhance_frames_run w ({[frames_dir]} ∪ fs)) as (a2 & s2 & f2 & E2).
  destruct (refine_frames_run w ({[enhanced_frames_dir]} ∪ ({[frames_dir]} ∪ fs)))
    as (a3 & s3 & f3 & E3).
  destruct (reassemble_video_run w
              ({[final_frames_dir]} ∪ ({[enhanced_frames_dir]} ∪ ({[frames_dir]} ∪ fs))))
    as (a4 & s4 & f4 & E4).
  do 4 eexists.
  split; [do 3 eexists; reflexivity|].
  split; [do 3 eexists; reflexivity|].
  split; [do 3 eexists; reflexivity|].
  split; [do 3 eexists; reflexivity|].
  unfold postprocess, step_result in *.
  destruct (reported (exec w (extract_command args)));
    [rewrite (bind_ok _ _ _ _ _ _ E1) | exact (bind_raise _ _ _ _ _ _ E1)].
  destruct (reported (exec w gfpgan_command));
    [rewrite (bind_ok _ _ _ _ _ _ E2)
    | rewrite (bind_raise _ _ _ _ _ _ E2); reflexivity].
  destruct (reported (exec w codeformer_command));
    [rewrite (bind_ok _ _ _ _ _ _ E3)
    | rewrite (bind_raise _ _ _ _ _ _ E3); reflexivity].
  rewrite E4. reflexivity.
Qed.

(** ** [main] in closed form *)

Lemma whisper_model_path_supported (cfg : Config) :
  whisper_model_path cfg = None <-> supported cfg = false.
Proof.
  unfold whisper_model_path, supported.
  destruct (py_eq_int (model_cross_attention_dim cfg) 768);
    destruct (py_eq_int (model_cross_attention_dim cfg) 384);
    simpl; split; congruence.
Qed.

Lemma main_unsupported (w : World) (cfg : Config) (args : Args)
    (fs : gset string) :
  supported cfg = false ->
  main w cfg args fs =
  Run [Print ("Input video path: " +:+ video_path args);
       Print ("Input audio path: " +:+ audio_path args);
       Print ("Loaded checkpoint path: " +:+ inference_ckpt_path args);
       SchedulerFromPretrained "configs"]
      fs (Raise (NotImplementedError "cross_attention_dim must be 768 or 384")).
Proof.
  intros H. apply whisper_model_path_supported in H.
  unfold main. rewrite H. reflexivity.
Qed.

(** A seed that [set_seed] refuses ends [main] at line 100, with the
    models built and the pipeline not invoked. *)
Lemma main_seed_rejected (w : World) (cfg : Config) (args : Args)
    (fs : gset string) :
  supported cfg = true -> seed_accepted args = false ->
  exists path,
    whisper_model_path cfg = Some path
    /\ main w cfg args fs =
       Run (setup w cfg args path) fs
           (Raise (ValueError "Seed must be between 0 and 2**32 - 1")).
Proof.
  intros H Hseed.
  destruct (whisper_model_path cfg) as [path|] eqn:Hp;
    [|apply whisper_model_path_supported in Hp; congruence].
  exists path. split; [reflexivity|].
  unfold seed_accepted in Hseed. apply orb_false_iff in Hseed as [Hm Hr].
  unfold main, setup, set_seed. rewrite Hp, Hm, Hr.
  set (post := postprocess w args). clearbody post.
  set (call := pipeline_call w cfg args). clearbody call.
  destruct (xformers_available w);
    cbv [bind emit ret raise res trace fs_out negb app]; reflexivity.
Qed.

Lemma main_supported_run (w : World) (cfg : Config) (args : Args)
    (fs : gset string) :
  supported cfg = true -> seed_accepted args = true ->
  exists path,
    whisper_model_path cfg = Some path
    /\ main w cfg args fs =
       Run (prelude w cfg args path
              ++ PipelineInvoked (pipeline_call w cfg args)
              :: trace (postprocess w args fs))
           (fs_out (postprocess w args fs)) (res (postprocess w args fs)).
Proof.
  intros H Hseed.
  destruct (whisper_model_path cfg) as [path|] eqn:Hp;
    [|apply whisper_model_path_supported in Hp; congruence].
  exists path. split; [reflexivity|].
  unfold seed_accepted in Hseed.
  unfold main, prelude, setup, set_seed. rewrite Hp.
  set (post := postprocess w args). clearbody post.
  set (call := pipeline_call w cfg args). clearbody call.
  destruct (seed args =? -1); cbn [orb] in Hseed; [|rewrite Hseed];
    destruct (xformers_available w);
    cbv [bind emit ret raise res trace fs_out negb app]; reflexivity.
Qed.

Lemma setup_facts (w : World) (cfg : Config) (args : Args) (path : string) :
  List.filter loads_model (setup w cfg args path) =
    [Audio2FeatureInit path "cuda" (data_num_frames cfg);
     VaeFromPretrained "stabilityai/sd-vae-ft-mse" (select_dtype w);
     UNetFromPretrained (model_cross_attention_dim cfg)
       (inference_ckpt_path args) "cpu"]
  /\ List.filter is_seed_event (setup w cfg args path) = []
  /\ List.filter is_invocation (setup w cfg args path) = []
  /\ process_events (setup w cfg args path) = []
  /\ created (setup w cfg args path) = []
  /\ blocking (setup w cfg args path) = true.
Proof.
  unfold setup. destruct (xformers_available w); repeat split.
Qed.

(** The three ways through [main] up to the invocation. *)
Lemma main_cases (w : World) (cfg : Config) (args : Args) (fs : gset string) :
  (supported cfg = false
   /\ main w cfg args fs =
      Run [Print ("Input video path: " +:+ video_path args);
           Print ("Input audio path: " +:+ audio_path args);
           Print ("Loaded checkpoint path: " +:+ inference_ckpt_path args);
           SchedulerFromPretrained "configs"]
          fs (Raise (NotImplementedError "cross_attention_dim must be 768 or 384")))
  \/ (supported cfg = true /\ seed_accepted args = false
      /\ exists path,
          whisper_model_path cfg = Some path
          /\ main w cfg args fs =
             Run (setup w cfg args path) fs
                 (Raise (ValueError "Seed must be between 0 and 2**32 - 1")))
  \/ (supported cfg = true /\ seed_accepted args = true
      /\ exists path,
          whisper_model_path cfg = Some path
          /\ main w cfg args fs =
             Run (prelude w cfg args path
                    ++ PipelineInvoked (pipeline_call w cfg args)
                    :: trace (postprocess w args fs))
                 (fs_out (postprocess w args fs))
                 (res (postprocess w args fs))).
Proof.
  destruct (supported cfg) eqn:Hs;
    [destruct (seed_accepted args) eqn:Ha|].
  - right; right. split; [reflexivity|]. split; [reflexivity|].
    apply main_supported_run; assumption.
  - right; left. split; [reflexivity|]. split; [reflexivity|].
    apply main_seed_rejected; assumption.
  - left. split; [reflexivity|]. apply main_unsupported. exact Hs.
Qed.

Lemma prelude_facts (w : World) (cfg : Config) (args : Args) (path : string) :
  List.filter loads_model (prelude w cfg args path) =
    [Audio2FeatureInit path "cuda" (data_num_frames cfg);
     VaeFromPretrained "stabilityai/sd-vae-ft-mse" (select_dtype w);
     UNetFromPretrained (model_cross_attention_dim cfg)
       (inference_ckpt_path args) "cpu"]
  /\ List.filter is_seed_event (prelude w cfg args path) =
     [if seed args =? -1 then TorchSeed else SetSeed (seed args)]
  /\ List.filter is_invocation (prelude w cfg args path) = []
  /\ process_events (prelude w cfg args path) = []
  /\ created (prelude w cfg args path) = []
  /\ blocking (prelude w cfg args path) = true.
Proof.
  unfold prelude, setup.
  destruct (xformers_available w), (seed args =? -1); repeat split.
Qed.

Lemma main_supported (w : World) (cfg : Config) (args : Args)
    (fs : gset string) :
  supported cfg = true -> seed_accepted args = true ->
  exists pre path,
    whisper_model_path cfg = Some path
    /\ main w cfg args fs =
       Run (pre ++ PipelineInvoked (pipeline_call w cfg args)
                :: trace (postprocess w args fs))
           (fs_out (postprocess w args fs)) (res (postprocess w args fs))
    /\ List.filter loads_model pre =
       [Audio2FeatureInit path "cuda" (data_num_frames cfg);
        VaeFromPretrained "stabilityai/sd-vae-ft-mse" (select_dtype w);
        UNetFromPretrained (model_cross_attention_dim cfg)
          (inference_ckpt_path args) "cpu"]
    /\ List.filter is_seed_event pre =
       [if seed args =? -1 then TorchSeed else SetSeed (seed args)]
    /\ List.filter is_invocation pre = []
    /\ process_events pre = []
    /\ created pre = []
    /\ blocking pre = true.
Proof.
  intros H Ha.
  destruct (main_supported_run w cfg args fs H Ha) as (path & Hp & E).
  exists (prelude w cfg args path), path.
  split; [exact Hp|]. split; [exact E|]. apply prelude_facts.
Qed.

(** ** C1: unsupported cross-attention dimension *)

(** C1.  For every configuration whose [model.cross_attention_dim] equals
    neither 768 nor 384, [main] raises [NotImplementedError]; what it has
    done by then is the three prints and the read of the scheduler
    configuration: no model has been loaded and no path created. *)
Theorem unsupported_dim_raises_before_model_load
    (w : World) (cfg : Config) (args : Args) (fs : gset string) :
  py_eq_int (model_cross_attention_dim cfg) 768 = false ->
  py_eq_int (model_cross_attention_dim cfg) 384 = false ->
  res (main w cfg args fs)
    = Raise (NotImplementedError "cross_attention_dim must be 768 or 384")
  /\ trace (main w cfg args fs)
     = [Print ("Input video path: " +:+ video_path args);
        Print ("Input audio path: " +:+ audio_path args);
        Print ("Loaded checkpoint path: " +:+ inference_ckpt_path args);
        SchedulerFromPretrained "configs"]
  /\ List.filter loads_model (trace (main w cfg args fs)) = []
  /\ fs_out (main w cfg args fs) = fs.
Proof.
  intros H768 H384.
  assert (Hs : supported cfg = false) by (unfold supported; rewrite H768, H384; reflexivity).
  rewrite (main_unsupported w cfg args fs Hs). repeat split.
Qed.

Lemma unsupported_dim_raises_before_model_load_witness :
  res (main world_ok (config_with (PInt 512)) sample_args ∅)
    = Raise (NotImplementedError "cross_attention_dim must be 768 or 384")
  /\ List.filter loads_model
       (trace (main world_ok (config_with (PInt 512)) sample_args ∅)) = [].
Proof.
  destruct (unsupported_dim_raises_before_model_load world_ok
              (config_with (PInt 512)) sample_args ∅)
    as (Hres & _ & Hload & _); [reflexivity | reflexivity |].
  split; [exact Hres | exact Hload].
Defined.

(** ** C3: the whisper checkpoint follows the dimension *)

Lemma py_eq_int_unique (v : pyval) (a b : Z) :
  py_eq_int v a = true -> py_eq_int v b = true -> a = b.
Proof.
  destruct v as [z|[q| |]|s|x|]; simpl; try discriminate.
  - intros Ha Hb. apply Z.eqb_eq in Ha, Hb. congruence.
  - intros Ha Hb. apply Qeq_bool_iff in Ha, Hb.
    unfold Qeq in Ha, Hb; simpl in Ha, Hb.
    assert (Hq : a * Z.pos (Qden q) = b * Z.pos (Qden q)) by congruence.
    apply Z.mul_cancel_r in Hq; [exact Hq | discriminate].
  - intros Ha Hb. apply Z.eqb_eq in Ha, Hb. congruence.
Qed.

Lemma postprocess_events (w : World) (args : Args) (fs : gset string) :
  Forall (fun e => is_postprocess_event e = true) (trace (postprocess w args fs)).
Proof.
  destruct (postprocess_run w args fs)
    as (t1 & t2 & t3 & t4 & S1 & S2 & S3 & S4 & E).
  apply step_of_postprocess_events in S1, S2, S3, S4.
  rewrite E.
  destruct (reported (exec w (extract_command args)));
    [destruct (reported (exec w gfpgan_command));
     [destruct (reported (exec w codeformer_command))|]|];
    cbn [trace]; repeat (apply Forall_app; split); assumption.
Qed.

Lemma filter_app_nil_r {A} (P : A -> bool) (l1 l2 : list A) :
  List.filter P l2 = [] -> List.filter P (l1 ++ l2) = List.filter P l1.
Proof. intros H. rewrite List.filter_app, H. apply app_nil_r. Qed.

(** C3.  For every configuration [main] accepts, the audio encoder is built
    exactly once and from the checkpoint that goes with the dimension:
    [small.pt] for 768 and [tiny.pt] for 384. *)
Theorem whisper_checkpoint_matches_dim
    (w : World) (cfg : Config) (args : Args) (fs : gset string)
    (n : Z) (path : string) :
  In (n, path) [(768, "checkpoints/whisper/small.pt");
                (384, "checkpoints/whisper/tiny.pt")] ->
  py_eq_int (model_cross_attention_dim cfg) n = true ->
  whisper_model_path cfg = Some path
  /\ List.filter is_audio_encoder_init (trace (main w cfg args fs))
     = [Audio2FeatureInit path "cuda" (data_num_frames cfg)].
Proof.
  intros Hin Hn.
  assert (Hp : whisper_model_path cfg = Some path).
  { unfold whisper_model_path.
    destruct Hin as [[= <- <-]|[[= <- <-]|[]]].
    - rewrite Hn. reflexivity.
    - destruct (py_eq_int (model_cross_attention_dim cfg) 768) eqn:H768.
      + pose proof (py_eq_int_unique _ _ _ H768 Hn). discriminate.
      + rewrite Hn. reflexivity. }
  split; [exact Hp|].
  assert (Hs : supported cfg = true).
  { destruct (supported cfg) eqn:Hs; [reflexivity|].
    apply whisper_model_path_supported in Hs. congruence. }
  assert (Hsub : forall l, List.filter is_audio_encoder_init l
               = List.filter is_audio_encoder_init (List.filter loads_model l)).
  { induction l as [|e l IH]; [reflexivity|].
    destruct e; simpl; rewrite <- ?IH; reflexivity. }
  destruct (seed_accepted args) eqn:Ha.
  - destruct (main_supported w cfg args fs Hs Ha)
      as (pre & path' & Hp' & E & Hload & _).
    assert (path' = path) as -> by congruence.
    rewrite E; cbn [trace].
    replace (pre ++ PipelineInvoked (pipeline_call w cfg args)
                 :: trace (postprocess w args fs))
      with (pre ++ [PipelineInvoked (pipeline_call w cfg args)]
                ++ trace (postprocess w args fs)) by reflexivity.
    rewrite app_assoc, filter_app_nil_r.
    + rewrite List.filter_app; simpl; rewrite app_nil_r.
      rewrite Hsub, Hload. reflexivity.
    + apply filter_postprocess; [apply postprocess_events|].
      intros [] He; (reflexivity || discriminate).
  - destruct (main_seed_rejected w cfg args fs Hs Ha) as (path' & Hp' & E).
    assert (path' = path) as -> by congruence.
    rewrite E; cbn [trace].
    destruct (setup_facts w cfg args path) as (Hload & _).
    rewrite Hsub, Hload. reflexivity.
Qed.

Lemma whisper_checkpoint_matches_dim_witness :
  whisper_model_path (config_with (PInt 384)) = Some "checkpoints/whisper/tiny.pt"
  /\ List.filter is_audio_encoder_init
       (trace (main world_ok (config_with (PInt 384)) sample_args ∅))
     = [Audio2FeatureInit "checkpoints/whisper/tiny.pt" "cuda" (PInt 16)].
Proof.
  apply (whisper_checkpoint_matches_dim world_ok (config_with (PInt 384))
           sample_args ∅ 384 "checkpoints/whisper/tiny.pt").
  - right; left; reflexivity.
  - reflexivity.
Defined.

(** ** C7 and C10: the pipeline invocation *)

Lemma filter_nil_In {A} (P : A -> bool) (l : list A) (x : A) :
  List.filter P l = [] -> In x l -> P x = false.
Proof.
  intros H Hx. destruct (P x) eqn:Px; [|reflexivity].
  assert (Hin : In x (List.filter P l)) by (apply List.filter_In; auto).
  rewrite H in Hin. destruct Hin.
Qed.

(** A list with one marked element splits around it in one way only. *)
Lemma split_unique {A} (P : A -> bool) (pre0 post0 : list A) (x0 : A) :
  List.filter P pre0 = [] -> List.filter P post0 = [] ->
  forall pre x post,
    pre0 ++ x0 :: post0 = pre ++ x :: post -> P x = true ->
    pre = pre0 /\ x = x0 /\ post = post0.
Proof.
  intros Hpre Hpost.
  induction pre0 as [|y pre0 IH]; intros pre x post E Px.
  - destruct pre as [|z pre]; simpl in E.
    + injection E as -> ->. auto.
    + injection E as -> ->.
      rewrite (filter_nil_In P _ x Hpost) in Px; [discriminate|].
      apply in_or_app. right. left. reflexivity.
  - simpl in Hpre. destruct (P y) eqn:Py; [discriminate|].
    destruct pre as [|z pre]; simpl in E.
    + injection E as <- _. congruence.
    + injection E as <- E.
      destruct (IH Hpre pre x post E Px) as (-> & -> & ->). auto.
Qed.

Lemma postprocess_no_invocation (w : World) (args : Args) (fs : gset string) :
  List.filter is_invocation (trace (postprocess w args fs)) = [].
Proof.
  apply filter_postprocess; [apply postprocess_events|].
  intros [] He; (reflexivity || discriminate).
Qed.

(** The pipeline is invoked in the runs that pass the dimension test, and
    in no other. *)
Lemma pipeline_invoked_iff_supported
    (w : World) (cfg : Config) (args : Args) (fs : gset string) :
  (exists c, In (PipelineInvoked c) (trace (main w cfg args fs)))
  <-> supported cfg = true /\ seed_accepted args = true.
Proof.
  split.
  - intros [c Hc].
    destruct (main_cases w cfg args fs)
      as [[_ E]|[(_ & _ & p & _ & E)|(Hs & Ha & _)]]; [| |auto];
      rewrite E in Hc; cbn [trace] in Hc; exfalso.
    + simpl in Hc.
      repeat (destruct Hc as [Hc|Hc]; [discriminate|]). destruct Hc.
    + destruct (setup_facts w cfg args p) as (_ & _ & Hinv & _).
      pose proof (filter_nil_In is_invocation _ _ Hinv Hc) as F.
      discriminate F.
  - intros [Hs Ha].
    destruct (main_supported w cfg args fs Hs Ha) as (pre & p & _ & E & _).
    exists (pipeline_call w cfg args). rewrite E; cbn [trace].
    apply in_or_app. right. left. reflexivity.
Qed.

Lemma invocation_split
    (w : World) (cfg : Config) (args : Args) (fs : gset string)
    (pre : list event) (c : PipelineCall) (post : list event) :
  trace (main w cfg args fs) = pre ++ PipelineInvoked c :: post ->
  c = pipeline_call w cfg args
  /\ post = trace (postprocess w args fs)
  /\ List.filter is_seed_event pre =
     [if seed args =? -1 then TorchSeed else SetSeed (seed args)]
  /\ List.filter is_invocation pre = [].
Proof.
  intros E.
  assert (Hs : supported cfg = true /\ seed_accepted args = true).
  { apply (pipeline_invoked_iff_supported w cfg args fs).
    exists c. rewrite E. apply in_or_app. right. left. reflexivity. }
  destruct Hs as [Hs Ha].
  destruct (main_supported w cfg args fs Hs Ha)
    as (pre0 & p & _ & E0 & _ & Hseed & Hinv & _).
  rewrite E0 in E; cbn [trace] in E.
  destruct (split_unique is_invocation pre0 _ _ Hinv
              (postprocess_no_invocation w args fs) pre _ post E eq_refl)
    as (-> & Hc & ->).
  injection Hc as ->. auto.
Qed.

Lemma seed_in_range_spec (s : Z) :
  seed_in_range s = true <-> 0 <= s < 2 ^ 32.
Proof.
  unfold seed_in_range. rewrite andb_true_iff, Z.leb_le, Z.ltb_lt. tauto.
Qed.

Lemma seed_accepted_spec (args : Args) :
  seed_accepted args = true <-> seed args = -1 \/ 0 <= seed args < 2 ^ 32.
Proof.
  unfold seed_accepted.
  rewrite orb_true_iff, Z.eqb_eq, seed_in_range_spec. tauto.
Qed.


(** C10.  In every run, the [video_mask_path] handed to the pipeline is
    [args.video_out_path.replace(".mp4", "_mask.mp4")], next to the
    unchanged [video_out_path]. *)
Theorem mask_path_derived_from_out_path
    (w : World) (cfg : Config) (args : Args) (fs : gset string)
    (c : PipelineCall) :
  In (PipelineInvoked c) (trace (main w cfg args fs)) ->
  call_video_out_path c = video_out_path args
  /\ call_video_mask_path c
     = str_replace (video_out_path args) ".mp4" "_mask.mp4".
Proof.
  intros Hin. apply in_split in Hin as (pre & post & E).
  destruct (invocation_split w cfg args fs pre c post E) as (-> & _).
  split; reflexivity.
Qed.



Lemma mask_path_derived_from_out_path_witness :
  call_video_mask_path
    (pipeline_call world_ok (config_with (PInt 384)) sample_args)
  = "video_out_mask.mp4".
Proof.
  refine (eq_trans
            (proj2 (mask_path_derived_from_out_path world_ok
                      (config_with (PInt 384)) sample_args ∅ _ _)) _).
  - vm_compute. do 14 right. left. reflexivity.
  - reflexivity.
Defined.

(** ** C4: order and completion of the four external programs *)

Lemma main_process_events
    (w : World) (cfg : Config) (args : Args) (fs : gset string) :
  supported cfg = true -> seed_accepted args = true ->
  process_events (trace (main w cfg args fs))
  = process_events (trace (postprocess w args fs))
  /\ created (trace (main w cfg args fs))
     = created (trace (postprocess w args fs))
  /\ blocking (trace (main w cfg args fs))
     = blocking (trace (postprocess w args fs))
  /\ fs_out (main w cfg args fs) = fs_out (postprocess w args fs)
  /\ res (main w cfg args fs) = res (postprocess w args fs).
Proof.
  intros Hs Ha. destruct (main_supported w cfg args fs Hs Ha)
    as (pre & p & _ & E & _ & _ & _ & Hproc & Hdirs & Hblock).
  rewrite E; cbn [trace fs_out res].
  rewrite process_events_app, created_app, Hproc, Hdirs.
  unfold blocking at 1. rewrite (blocking_from_app _ _ _ Hblock).
  repeat split.
Qed.

(** A run that ends at the dimension test or at the seed has started no
    program and created no directory. *)
Lemma main_stopped_early
    (w : World) (cfg : Config) (args : Args) (fs : gset string) :
  supported cfg = false \/ seed_accepted args = false ->
  process_events (trace (main w cfg args fs)) = []
  /\ created (trace (main w cfg args fs)) = []
  /\ blocking (trace (main w cfg args fs)) = true
  /\ fs_out (main w cfg args fs) = fs
  /\ (res (main w cfg args fs)
      = Raise (NotImplementedError "cross_attention_dim must be 768 or 384")
      \/ res (main w cfg args fs)
         = Raise (ValueError "Seed must be between 0 and 2**32 - 1")).
Proof.
  intros H.
  destruct (main_cases w cfg args fs)
    as [[_ E]|[(_ & _ & p & _ & E)|(Hs & Ha & _)]].
  - rewrite E. cbn [trace fs_out res]. repeat split; auto.
  - destruct (setup_facts w cfg args p) as (_ & _ & _ & Hproc & Hdirs & Hblock).
    rewrite E. cbn [trace fs_out res]. repeat split; auto.
  - destruct H; congruence.
Qed.

(** In no run does a process overlap anything else, whether the run is
    rejected, cut short or complete. *)
Lemma main_blocking (w : World) (cfg : Config) (args : Args) (fs : gset string) :
  blocking (trace (main w cfg args fs)) = true.
Proof.
  destruct (supported cfg) eqn:Hs;
    [destruct (seed_accepted args) eqn:Ha|].
  - destruct (main_process_events w cfg args fs Hs Ha) as (_ & _ & -> & _).
    destruct (postprocess_run w args fs)
      as (t1 & t2 & t3 & t4 & S1 & S2 & S3 & S4 & E).
    apply step_of_blocking in S1, S2, S3, S4.
    rewrite E.
    destruct (reported (exec w (extract_command args)));
      [destruct (reported (exec w gfpgan_command));
       [destruct (reported (exec w codeformer_command))|]|];
      cbn [trace]; repeat (apply blocking_app; [assumption|]); assumption.
  - apply main_stopped_early. right. exact Ha.
  - apply main_stopped_early. left. exact Hs.
Qed.

(** The programs run are always an initial part of the four, in order. *)
Lemma main_process_events_prefix
    (w : World) (cfg : Config) (args : Args) (fs : gset string) :
  exists rest,
    four_stages w args = process_events (trace (main w cfg args fs)) ++ rest.
Proof.
  destruct (supported cfg) eqn:Hs;
    [destruct (seed_accepted args) eqn:Ha|].
  - destruct (main_process_events w cfg args fs Hs Ha) as (-> & _).
    destruct (postprocess_run w args fs)
      as (t1 & t2 & t3 & t4 & S1 & S2 & S3 & S4 & E).
    apply step_of_process_events in S1, S2, S3, S4.
    rewrite E. unfold four_stages.
    destruct (reported (exec w (extract_command args)));
      [destruct (reported (exec w gfpgan_command));
       [destruct (reported (exec w codeformer_command))|]|];
      cbn [trace]; rewrite ?process_events_app, ?S1, ?S2, ?S3, ?S4;
      rewrite <- ?app_assoc; eexists;
      repeat (apply (f_equal2 (@app event)); [reflexivity|]);
      try (symmetry; apply app_nil_r); reflexivity.
  - destruct (main_stopped_early w cfg args fs (or_intror Ha)) as (-> & _).
    eexists. reflexivity.
  - destruct (main_stopped_early w cfg args fs (or_introl Hs)) as (-> & _).
    eexists. reflexivity.
Qed.

Lemma postprocess_complete (w : World) (args : Args) (fs : gset string) :
  reported (exec w (extract_command args)) = true ->
  reported (exec w gfpgan_command) = true ->
  reported (exec w codeformer_command) = true ->
  process_events (trace (postprocess w args fs)) = four_stages w args
  /\ res (postprocess w args fs) = step_result w encode_command.
Proof.
  intros H1 H2 H3.
  destruct (postprocess_run w args fs)
    as (t1 & t2 & t3 & t4 & S1 & S2 & S3 & S4 & E).
  apply step_of_process_events in S1, S2, S3, S4.
  rewrite E, H1, H2, H3; cbn [trace res].
  rewrite !process_events_app, S1, S2, S3, S4. split; reflexivity.
Qed.

(** When does [main] return?  When the dimension and the seed are accepted
    and every report goes through. *)
Lemma main_returns_iff (w : World) (cfg : Config) (args : Args) (fs : gset string) :
  res (main w cfg args fs) = Ok tt
  <-> supported cfg = true
      /\ seed_accepted args = true
      /\ reported (exec w (extract_command args)) = true
      /\ reported (exec w gfpgan_command) = true
      /\ reported (exec w codeformer_command) = true
      /\ reported (exec w encode_command) = true.
Proof.
  destruct (supported cfg) eqn:Hs;
    [destruct (seed_accepted args) eqn:Ha|].
  - destruct (main_process_events w cfg args fs Hs Ha) as (_ & _ & _ & _ & ->).
    destruct (postprocess_run w args fs) as (? & ? & ? & ? & _ & _ & _ & _ & E).
    rewrite E. unfold step_result.
    destruct (reported (exec w (extract_command args)));
      [destruct (reported (exec w gfpgan_command));
       [destruct (reported (exec w codeformer_command));
        [destruct (reported (exec w encode_command))|]|]|];
      cbn [res]; split; intros H; try discriminate H; try tauto;
      destruct H as (_ & _ & H1 & H2 & H3 & H4); discriminate.
  - destruct (main_stopped_early w cfg args fs (or_intror Ha))
      as (_ & _ & _ & _ & [E|E]); rewrite E;
      (split; [discriminate | intros (_ & H & _); discriminate H]).
  - destruct (main_stopped_early w cfg args fs (or_introl Hs))
      as (_ & _ & _ & _ & [E|E]); rewrite E;
      (split; [discriminate | intros (H & _); discriminate H]).
Qed.

(** C4, as amended.  In every run of [main] that returns normally, the
    external programs started are frame extraction, GFPGAN, CodeFormer and
    re-encoding, in this order, and each has exited before anything else
    happens. *)
Theorem four_stages_in_order
    (w : World) (cfg : Config) (args : Args) (fs : gset string) :
  res (main w cfg args fs) = Ok tt ->
  process_events (trace (main w cfg args fs)) = four_stages w args
  /\ blocking (trace (main w cfg args fs)) = true.
Proof.
  intros Hok. split; [|apply main_blocking].
  apply main_returns_iff in Hok as (Hs & Ha & H1 & H2 & H3 & _).
  destruct (main_process_events w cfg args fs Hs Ha) as (-> & _).
  apply postprocess_complete; assumption.
Qed.

Lemma four_stages_in_order_witness :
  process_events (trace (main world_ok (config_with (PInt 768)) sample_args ∅))
  = four_stages world_ok sample_args
  /\ blocking (trace (main world_ok (config_with (PInt 768)) sample_args ∅))
     = true.
Proof.
  apply (four_stages_in_order world_ok (config_with (PInt 768)) sample_args ∅).
  vm_compute. reflexivity.
Defined.

(** A run rejected at the dimension test starts none of the four programs:
    the unrestricted form of C4 does not hold. *)
Lemma four_stages_absent_when_rejected :
  process_events (trace (main world_ok (config_with (PInt 512)) sample_args ∅))
  <> four_stages world_ok sample_args.
Proof. vm_compute. discriminate. Qed.

(** ** C5: the three frame directories *)

Lemma absent_after_other (d d' : string) (fs : gset string) :
  d <> d' ->
  bool_decide (d ∈ ({[d']} ∪ fs : gset string)) = bool_decide (d ∈ fs).
Proof.
  intros Hne. apply bool_decide_ext.
  rewrite elem_of_union, elem_of_singleton. tauto.
Qed.

(** Once the first two reports have gone through, all three guards have
    been executed. *)
Lemma postprocess_directories (w : World) (args : Args) (fs : gset string) :
  reported (exec w (extract_command args)) = true ->
  reported (exec w gfpgan_command) = true ->
  fs_out (postprocess w args fs)
  = {[final_frames_dir]} ∪ ({[enhanced_frames_dir]} ∪ ({[frames_dir]} ∪ fs))
  /\ created (trace (postprocess w args fs))
     = List.filter (fun d => negb (bool_decide (d ∈ fs)))
         [frames_dir; enhanced_frames_dir; final_frames_dir]
  /\ (res (postprocess w args fs) = Ok tt
      \/ res (postprocess w args fs) = Raise UnicodeDecodeError).
Proof.
  intros H1 H2.
  destruct (postprocess_run w args fs)
    as (t1 & t2 & t3 & t4 & S1 & S2 & S3 & S4 & E).
  apply step_of_created in S1, S2, S3, S4.
  rewrite E, H1, H2.
  assert (Hdirs : created (t1 ++ t2 ++ t3)
                  = List.filter (fun d => negb (bool_decide (d ∈ fs)))
                      [frames_dir; enhanced_frames_dir; final_frames_dir]).
  { rewrite !created_app, S1, S2, S3. simpl.
    rewrite (absent_after_other enhanced_frames_dir frames_dir) by discriminate.
    rewrite (absent_after_other final_frames_dir enhanced_frames_dir) by discriminate.
    rewrite (absent_after_other final_frames_dir frames_dir) by discriminate.
    destruct (bool_decide (frames_dir ∈ fs)),
             (bool_decide (enhanced_frames_dir ∈ fs)),
             (bool_decide (final_frames_dir ∈ fs)); reflexivity. }
  destruct (reported (exec w codeformer_command)); cbn [trace fs_out res].
  - split; [reflexivity|]. split.
    + rewrite !app_assoc, created_app, S4, <- !app_assoc. simpl.
      rewrite app_nil_r. exact Hdirs.
    + unfold step_result. destruct (reported (exec w encode_command)); auto.
  - split; [reflexivity|]. split; [exact Hdirs | auto].
Qed.

(** A guard over a directory that is there creates nothing. *)
Lemma step_of_created_present w d cmd fs t :
  d ∈ fs -> step_of w [d] cmd fs t -> created t = [].
Proof.
  intros Hd S. rewrite (step_of_created _ _ _ _ _ S). cbn [List.filter].
  rewrite bool_decide_eq_true_2 by exact Hd. reflexivity.
Qed.

(** With the three directories in place [os.makedirs] is not reached,
    wherever the run ends. *)
Lemma postprocess_creates_nothing (w : World) (args : Args) (fs : gset string) :
  frames_dir ∈ fs -> enhanced_frames_dir ∈ fs -> final_frames_dir ∈ fs ->
  created (trace (postprocess w args fs)) = [].
Proof.
  intros Hf He Hl.
  destruct (postprocess_run w args fs)
    as (t1 & t2 & t3 & t4 & S1 & S2 & S3 & S4 & E).
  apply step_of_created_present in S1; [|exact Hf].
  apply step_of_created_present in S2; [|set_solver].
  apply step_of_created_present in S3; [|set_solver].
  apply step_of_created in S4. cbn [List.filter] in S4.
  rewrite E.
  destruct (reported (exec w (extract_command args)));
    [destruct (reported (exec w gfpgan_command));
     [destruct (reported (exec w codeformer_command))|]|];
    cbn [trace]; rewrite ?created_app, ?S1, ?S2, ?S3, ?S4; reflexivity.
Qed.

(** [main] does not end with [FileExistsError]: [os.makedirs] is only
    reached for a path that [os.path.exists] has just found absent. *)
Lemma main_never_FileExistsError
    (w : World) (cfg : Config) (args : Args) (fs : gset string) (p : string) :
  res (main w cfg args fs) <> Raise (FileExistsError p).
Proof.
  destruct (supported cfg) eqn:Hs;
    [destruct (seed_accepted args) eqn:Ha|].
  - destruct (main_process_events w cfg args fs Hs Ha) as (_ & _ & _ & _ & ->).
    destruct (postprocess_run w args fs) as (t1 & t2 & t3 & t4 & _ & _ & _ & _ & E).
    rewrite E. unfold step_result.
    destruct (reported (exec w (extract_command args)));
      [destruct (reported (exec w gfpgan_command));
       [destruct (reported (exec w codeformer_command));
        [destruct (reported (exec w encode_command))|]|]|];
      cbn [res]; discriminate.
  - destruct (main_stopped_early w cfg args fs (or_intror Ha))
      as (_ & _ & _ & _ & [E|E]); rewrite E; discriminate.
  - destruct (main_stopped_early w cfg args fs (or_introl Hs))
      as (_ & _ & _ & _ & [E|E]); rewrite E; discriminate.
Qed.

(** C5, as amended.  Every run of [main] that returns normally has
    created, in order, those of [temp_frames], [enhanced_frames] and
    [final_frames] that were absent, and nothing else.  The creation is
    idempotent: a run started with the three directories in place creates
    nothing, wherever it ends, and does not end with [FileExistsError]. *)
Theorem directories_created_idempotently
    (w : World) (cfg : Config) (args : Args) (fs : gset string) :
  (res (main w cfg args fs) = Ok tt ->
   created (trace (main w cfg args fs))
   = List.filter (fun d => negb (bool_decide (d ∈ fs)))
       [frames_dir; enhanced_frames_dir; final_frames_dir])
  /\ (frames_dir ∈ fs -> enhanced_frames_dir ∈ fs -> final_frames_dir ∈ fs ->
      created (trace (main w cfg args fs)) = []
      /\ forall p, res (main w cfg args fs) <> Raise (FileExistsError p)).
Proof.
  split.
  - intros Hok.
    apply main_returns_iff in Hok as (Hs & Ha & H1 & H2 & _).
    destruct (main_process_events w cfg args fs Hs Ha) as (_ & -> & _).
    apply postprocess_directories; assumption.
  - intros Hf He Hl. split; [|intros p; apply main_never_FileExistsError].
    destruct (supported cfg) eqn:Hs;
      [destruct (seed_accepted args) eqn:Ha|].
    + destruct (main_process_events w cfg args fs Hs Ha) as (_ & -> & _).
      apply postprocess_creates_nothing; assumption.
    + apply main_stopped_early. right. exact Ha.
    + apply main_stopped_early. left. exact Hs.
Qed.

Lemma directories_created_idempotently_witness :
  created (trace (main world_ok (config_with (PInt 384)) sample_args
                    {[enhanced_frames_dir]}))
  = [frames_dir; final_frames_dir]
  /\ created
       (trace (main world_ok (config_with (PInt 384)) sample_args
                 (list_to_set
                    [frames_dir; enhanced_frames_dir; final_frames_dir])))
     = [].
Proof.
  split.
  - refine (eq_trans
              (proj1 (directories_created_idempotently world_ok
                        (config_with (PInt 384)) sample_args
                        {[enhanced_frames_dir]}) _) _).
    + vm_compute. reflexivity.
    + vm_compute. reflexivity.
  - refine (proj1 (proj2 (directories_created_idempotently world_ok
                            (config_with (PInt 384)) sample_args
                            (list_to_set [frames_dir; enhanced_frames_dir;
                                          final_frames_dir])) _ _ _));
      apply (bool_decide_unpack _); vm_compute; exact I.
Defined.

(** A run rejected at the dimension test leaves the absent [temp_frames],
    [enhanced_frames] and [final_frames] absent: the unrestricted form of
    C5 does not hold. *)
Lemma directories_absent_when_rejected :
  created (trace (main world_ok (config_with (PInt 512)) sample_args ∅)) = []
  /\ fs_out (main world_ok (config_with (PInt 512)) sample_args ∅) = ∅.
Proof. split; reflexivity. Qed.

(** ** C2: a failing step and the steps after it *)

(** Where every report goes through, the chain runs to its end: a
    non-zero exit code alone stops nothing. *)
Lemma stage_failures_do_not_halt
    (w : World) (cfg : Config) (args : Args) (fs : gset string) :
  supported cfg = true ->
  seed_accepted args = true ->
  reported (exec w (extract_command args)) = true ->
  reported (exec w gfpgan_command) = true ->
  reported (exec w codeformer_command) = true ->
  reported (exec w encode_command) = true ->
  res (main w cfg args fs) = Ok tt
  /\ process_events (trace (main w cfg args fs)) = four_stages w args.
Proof.
  intros Hs Ha H1 H2 H3 H4.
  destruct (main_process_events w cfg args fs Hs Ha) as (-> & _ & _ & _ & ->).
  destruct (postprocess_complete w args fs H1 H2 H3) as (-> & ->).
  unfold step_result. rewrite H4. split; reflexivity.
Qed.

Lemma decodable_failure_continues :
  res (main world_decodable (config_with (PInt 384)) sample_args ∅) = Ok tt
  /\ In (PrintDecoded [233%N])
        (trace (main world_decodable (config_with (PInt 384)) sample_args ∅))
  /\ spawned (trace (main world_decodable (config_with (PInt 384)) sample_args ∅))
     = [extract_command sample_args; gfpgan_command; codeformer_command;
        encode_command].
Proof.
  split; [vm_compute; reflexivity|].
  split; [vm_compute; repeat (first [left; reflexivity | right])
         | vm_compute; reflexivity].
Qed.

(** C2, at the failing input.  Frame extraction exits with status 1 and
    leaves the byte 0xFF on stderr: decoding the captured stderr raises
    [UnicodeDecodeError], [main] ends with that exception, and GFPGAN,
    CodeFormer and the re-encoding are never started. *)
Theorem undecodable_stderr_halts_chain :
  res (main world_undecodable (config_with (PInt 384)) sample_args ∅)
  = Raise UnicodeDecodeError
  /\ spawned (trace (main world_undecodable (config_with (PInt 384))
                       sample_args ∅))
     = [extract_command sample_args]
  /\ returncode (exec world_undecodable (extract_command sample_args)) = 1
  /\ stderr (exec world_undecodable (extract_command sample_args)) = [xff].
Proof. repeat split; vm_compute; reflexivity. Qed.

(** ** C8 and C9: the dependency bootstrap *)

Lemma check_gfpgan_run (w : World) (fs : gset string) :
  check_gfpgan w fs =
  if gfpgan_importable w then Run [] fs (Ok tt)
  else Run (Print "GFPGAN not found. Installing..."
              :: stage_events w (pip_install_gfpgan w))
           fs (checked w (pip_install_gfpgan w)).
Proof.
  unfold check_gfpgan, install_package.
  destruct (gfpgan_importable w); [reflexivity|].
  rewrite bind_run; cbn [emit res trace fs_out].
  rewrite check_call_run. reflexivity.
Qed.

Lemma check_codeformer_run (w : World) (fs : gset string) :
  check_codeformer w fs =
  if bool_decide ("CodeFormer" ∈ fs) then Run [] fs (Ok tt)
  else if returncode (exec w git_clone_codeformer) =? 0 then
    Run (Print "CodeFormer repository not found. Cloning..."
           :: stage_events w git_clone_codeformer
           ++ Print "Installing CodeFormer dependencies..."
           :: stage_events w (pip_install_requirements w))
        fs (checked w (pip_install_requirements w))
  else
    Run (Print "CodeFormer repository not found. Cloning..."
           :: stage_events w git_clone_codeformer)
        fs (checked w git_clone_codeformer).
Proof.
  unfold check_codeformer, checked.
  rewrite bind_run; cbn [path_exists res trace fs_out].
  destruct (bool_decide ("CodeFormer" ∈ fs)); cbn [negb]; [reflexivity|].
  rewrite bind_run; cbn [emit res trace fs_out].
  rewrite bind_run, check_call_run; cbn [res trace fs_out].
  fold git_clone_codeformer.
  destruct (returncode (exec w git_clone_codeformer) =? 0); [|reflexivity].
  rewrite bind_run; cbn [emit res trace fs_out].
  rewrite check_call_run. reflexivity.
Qed.

Lemma bootstrap_run (w : World) (fs : gset string) :
  bootstrap w fs =
  let first := check_gfpgan w fs in
  let second := check_codeformer w fs in
  match res first with
  | Ok _ => Run (trace first ++ trace second) fs (res second)
  | Raise e => Run (trace first) fs (Raise e)
  end.
Proof.
  unfold bootstrap. rewrite bind_run. cbv zeta.
  rewrite check_gfpgan_run. unfold checked.
  destruct (gfpgan_importable w);
    [|destruct (returncode (exec w (pip_install_gfpgan w)) =? 0)];
    cbn [res trace fs_out]; try reflexivity.
  all: rewrite check_codeformer_run; unfold checked;
    repeat match goal with
           | |- context [if ?c then _ else _] => destruct c
           end; reflexivity.
Qed.

Lemma bootstrap_nothing_to_do (w : World) (fs : gset string) :
  gfpgan_importable w = true -> "CodeFormer" ∈ fs ->
  bootstrap w fs = Run [] fs (Ok tt).
Proof.
  intros Hg Hc.
  rewrite bootstrap_run, check_gfpgan_run, check_codeformer_run, Hg.
  rewrite bool_decide_eq_true_2 by exact Hc. reflexivity.
Qed.

(** C8, as amended.  On import, if [gfpgan] cannot be imported its pip
    install is started, whatever pip returns.  If the [CodeFormer]
    directory does not exist, the git clone is started, whatever git
    returns, unless the install of [gfpgan] has just exited with a non-zero
    status; and the pip install of the requirements is started if the
    clone exits with status 0.  No other shell-out is made; in particular
    none when both are present. *)
Theorem bootstrap_installs_what_is_missing (w : World) (fs : gset string) :
  spawned (trace (bootstrap w fs))
  = (let codeformer :=
       if bool_decide ("CodeFormer" ∈ fs) then []
       else git_clone_codeformer
            :: (if returncode (exec w git_clone_codeformer) =? 0
                then [pip_install_requirements w] else []) in
     if gfpgan_importable w then codeformer
     else pip_install_gfpgan w
          :: (if returncode (exec w (pip_install_gfpgan w)) =? 0
              then codeformer else [])).
Proof.
  rewrite bootstrap_run, check_gfpgan_run, check_codeformer_run.
  unfold checked. cbv zeta.
  destruct (gfpgan_importable w);
    [|destruct (returncode (exec w (pip_install_gfpgan w)) =? 0)];
    (destruct (bool_decide ("CodeFormer" ∈ fs));
     [|destruct (returncode (exec w git_clone_codeformer) =? 0)]);
    reflexivity.
Qed.

Lemma bootstrap_installs_what_is_missing_witness :
  spawned (trace (bootstrap (world_where false [] silent) ∅))
  = [pip_install_gfpgan (world_where false [] silent);
     git_clone_codeformer;
     pip_install_requirements (world_where false [] silent)].
Proof.
  refine (eq_trans
            (bootstrap_installs_what_is_missing (world_where false [] silent) ∅)
            _).
  reflexivity.
Defined.

(** With [CodeFormer] absent and the install of [gfpgan] failing, the
    bootstrap ends before anything is cloned: the unrestricted form of C8
    does not hold. *)
Lemma codeformer_not_cloned_after_failed_install :
  ("CodeFormer" ∉ (∅ : gset string))
  /\ ~ In git_clone_codeformer (spawned (trace (bootstrap world_pip_fails ∅))).
Proof.
  split; [apply not_elem_of_empty|].
  vm_compute. intros [H|[]]. discriminate H.
Qed.

Lemma run_eta {A} (r : run A) : r = Run (trace r) (fs_out r) (res r).
Proof. destruct r; reflexivity. Qed.

(** A shell-out of the bootstrap that exits with a non-zero status is the
    last thing the bootstrap does. *)
Lemma bootstrap_failure (w : World) (fs : gset string)
    (cmd : list string) (rc : Z) :
  In (Exited cmd rc) (trace (bootstrap w fs)) -> rc <> 0 ->
  In cmd [pip_install_gfpgan w; git_clone_codeformer; pip_install_requirements w]
  /\ res (bootstrap w fs) = Raise (CalledProcessError rc cmd)
  /\ fs_out (bootstrap w fs) = fs.
Proof.
  rewrite bootstrap_run, check_gfpgan_run, check_codeformer_run.
  unfold checked, stage_events. cbv zeta.
  destruct (gfpgan_importable w);
    [|destruct (returncode (exec w (pip_install_gfpgan w)) =? 0) eqn:Hpip];
    (destruct (bool_decide ("CodeFormer" ∈ fs));
     [|destruct (returncode (exec w git_clone_codeformer) =? 0) eqn:Hclone;
       [destruct (returncode (exec w (pip_install_requirements w)) =? 0) eqn:Hreq|]]);
    cbn [res trace fs_out app]; intros Hin Hrc;
    repeat (destruct Hin as [Hin|Hin];
            [try discriminate Hin; injection Hin as <- <-|]);
    try contradiction;
    try (apply Z.eqb_eq in Hpip; contradiction);
    try (apply Z.eqb_eq in Hclone; contradiction);
    try (apply Z.eqb_eq in Hreq; contradiction);
    (split; [simpl; tauto | split; reflexivity]).
Qed.

(** C9.  A bootstrap shell-out that exits with a non-zero status (the pip
    install of gfpgan, the git clone, or the pip install of the
    requirements) makes [check_call] raise [CalledProcessError]; the
    module ends there: no argument is parsed, no configuration loaded and
    [main] is not entered. *)
Theorem bootstrap_failure_aborts_script
    (py_int : string -> option Z) (py_float : string -> option pyfloat)
    (w : World) (is_main : bool) (argv : list (string * string))
    (fs : gset string) (cmd : list string) (rc : Z) :
  In (Exited cmd rc) (trace (bootstrap w fs)) -> rc <> 0 ->
  In cmd [pip_install_gfpgan w; git_clone_codeformer; pip_install_requirements w]
  /\ script py_int py_float w is_main argv fs
     = Run (trace (bootstrap w fs)) fs (Raise (CalledProcessError rc cmd)).
Proof.
  intros Hin Hrc.
  destruct (bootstrap_failure w fs cmd rc Hin Hrc) as (Hcmd & Hres & Hfs).
  split; [exact Hcmd|].
  unfold script. apply bind_raise.
  rewrite (run_eta (bootstrap w fs)), Hres, Hfs. reflexivity.
Qed.

Lemma bootstrap_failure_aborts_script_witness :
  script (fun _ => None) (fun _ => None) world_pip_fails true [] ∅
  = Run (trace (bootstrap world_pip_fails ∅)) ∅
      (Raise (CalledProcessError 1 (pip_install_gfpgan world_pip_fails))).
Proof.
  refine (proj2 (bootstrap_failure_aborts_script (fun _ => None) (fun _ => None)
                   world_pip_fails true [] ∅
                   (pip_install_gfpgan world_pip_fails) 1 _ _)).
  - vm_compute. right. right. left. reflexivity.
  - discriminate.
Defined.

(** Each of the three shell-outs can be the one that fails. *)
Lemma clone_failure_aborts :
  res (bootstrap (world_where true git_clone_codeformer (failed 128 [])) ∅)
  = Raise (CalledProcessError 128 git_clone_codeformer)
  /\ spawned (trace (bootstrap (world_where true git_clone_codeformer
                                  (failed 128 [])) ∅))
     = [git_clone_codeformer].
Proof. split; vm_compute; reflexivity. Qed.

Lemma requirements_failure_aborts :
  res (bootstrap (world_where true
                    ["/usr/bin/python3"; "-m"; "pip"; "install"; "-r";
                     "CodeFormer/requirements.txt"] (failed 1 [])) ∅)
  = Raise (CalledProcessError 1
             ["/usr/bin/python3"; "-m"; "pip"; "install"; "-r";
              "CodeFormer/requirements.txt"]).
Proof. vm_compute. reflexivity. Qed.

(** ** C6: the command-line parser *)

Section ParserFacts.

Variable py_int : string -> option Z.
Variable py_float : string -> option pyfloat.

Lemma find_argument_spec (opt : string) (a : Argument) :
  find_argument opt = Some a -> In a parser /\ option_string a = opt.
Proof.
  intros H. apply List.find_some in H as [Hin Heq].
  split; [exact Hin | apply String.eqb_eq, Heq].
Qed.

(** Two declared options never share an attribute. *)
Lemma dest_injective (a b : Argument) :
  In a parser -> In b parser -> dest a = dest b ->
  option_string a = option_string b.
Proof.
  intros Ha Hb.
  repeat (destruct Ha as [<-|Ha]; [|]); try destruct Ha;
    repeat (destruct Hb as [<-|Hb]; [|]); try destruct Hb;
    vm_compute; intros H; (reflexivity || discriminate H).
Qed.

(** An option that does not occur leaves its attribute alone. *)
Lemma consume_untouched (a : Argument) :
  In a parser ->
  forall (argv : list (string * string)) (ns ns' : gmap string pyval),
    option_string a ∉ argv.*1 ->
    consume py_int py_float argv ns = Some ns' ->
    ns' !! dest a = ns !! dest a.
Proof.
  intros Ha argv. induction argv as [|[opt word] argv IH]; intros ns ns' Hout H.
  - injection H as <-. reflexivity.
  - simpl in H, Hout.
    apply not_elem_of_cons in Hout as [Hne Hout].
    destruct (find_argument opt) as [b|] eqn:Hb; [|discriminate].
    destruct (convert py_int py_float (type_ b) word) as [v|]; [|discriminate].
    rewrite (IH _ _ Hout H).
    apply lookup_insert_ne. intros Heq.
    apply find_argument_spec in Hb as [Hbin Hbopt].
    apply Hne. rewrite <- Hbopt. symmetry.
    apply dest_injective; [assumption | assumption | congruence].
Qed.

(** C6.  The parser rejects (exit status 2) a command line that lacks
    [--inference_ckpt_path], [--video_path], [--audio_path] or
    [--video_out_path]; on a command line it accepts, [inference_steps] is
    20, [guidance_scale] is 1.0 and [seed] is 1247 whenever the
    corresponding flag is omitted. *)
Theorem parser_required_and_defaults (argv : list (string * string)) :
  (forall opt,
      In opt ["--inference_ckpt_path"; "--video_path"; "--audio_path";
              "--video_out_path"] ->
      opt ∉ argv.*1 ->
      parse_args py_int py_float argv = Raise (SystemExit 2))
  /\ (forall ns,
        parse_args py_int py_float argv = Ok ns ->
        ("--inference_steps" ∉ argv.*1 ->
         ns !! "inference_steps" = Some (PInt 20))
        /\ ("--guidance_scale" ∉ argv.*1 ->
            ns !! "guidance_scale" = Some (PFloat (FloatOfQ 1)))
        /\ ("--seed" ∉ argv.*1 -> ns !! "seed" = Some (PInt 1247))).
Proof.
  split.
  - intros opt Hopt Hout. unfold parse_args.
    destruct (consume py_int py_float argv initial_namespace); [|reflexivity].
    assert (Hreq : forallb (fun a => negb (required a) || seen argv a) parser
                   = false).
    { apply not_true_is_false. intros Hall.
      rewrite forallb_forall in Hall.
      repeat (destruct Hopt as [<-|Hopt];
              [match goal with
               | Hout : ?o ∉ _ |- _ =>
                   specialize (Hall {| option_string := o; type_ := type_str;
                                       required := true; default := PNone |})
               end;
               simpl in Hall; unfold seen in Hall; simpl in Hall;
               rewrite bool_decide_eq_false_2 in Hall by exact Hout;
               assert (false = true) by (apply Hall; tauto); discriminate|]).
      destruct Hopt. }
    rewrite Hreq. reflexivity.
  - intros ns H. unfold parse_args in H.
    destruct (consume py_int py_float argv initial_namespace) as [ns'|] eqn:Hc;
      [|discriminate].
    destruct (forallb _ parser); [|discriminate]. injection H as ->.
    repeat split; intros Hout.
    + apply (consume_untouched
               {| option_string := "--inference_steps"; type_ := type_int;
                  required := false; default := PInt 20 |}) in Hc;
        [exact Hc | simpl; tauto | exact Hout].
    + apply (consume_untouched
               {| option_string := "--guidance_scale"; type_ := type_float;
                  required := false; default := PFloat (FloatOfQ 1) |}) in Hc;
        [exact Hc | simpl; tauto | exact Hout].
    + apply (consume_untouched
               {| option_string := "--seed"; type_ := type_int;
                  required := false; default := PInt 1247 |}) in Hc;
        [exact Hc | simpl; tauto | exact Hout].
Qed.

End ParserFacts.

Lemma parser_required_and_defaults_witness :
  parse_args (fun _ => None) (fun _ => None) (tail sample_argv)
  = Raise (SystemExit 2)
  /\ exists ns,
      parse_args (fun _ => None) (fun _ => None) sample_argv = Ok ns
      /\ ns !! "inference_steps" = Some (PInt 20)
      /\ ns !! "guidance_scale" = Some (PFloat (FloatOfQ 1))
      /\ ns !! "seed" = Some (PInt 1247).
Proof.
  split.
  - apply (proj1 (parser_required_and_defaults (fun _ => None) (fun _ => None)
                    (tail sample_argv)) "--inference_ckpt_path").
    + left. reflexivity.
    + apply (bool_decide_eq_false_1 _). vm_compute. reflexivity.
  - assert (Hparse :
      parse_args (fun _ => None) (fun _ => None) sample_argv
      = Ok (<["video_out_path" := PStr "video_out.mp4"]>
              (<["audio_path" := PStr "assets/demo.wav"]>
                 (<["video_path" := PStr "assets/demo.mp4"]>
                    (<["inference_ckpt_path" := PStr "checkpoints/latentsync_unet.pt"]>
                       initial_namespace)))))
      by reflexivity.
    eexists. split; [exact Hparse|].
    destruct (proj2 (parser_required_and_defaults (fun _ => None)
                       (fun _ => None) sample_argv) _ Hparse)
      as (Hsteps & Hscale & Hseed).
    split; [apply Hsteps | split; [apply Hscale | apply Hseed]];
      apply (bool_decide_eq_false_1 _); vm_compute; reflexivity.
Defined.

Section NamespaceFacts.

Variable py_int : string -> option Z.
Variable py_float : string -> option pyfloat.

Lemma convert_has_type (t : arg_type) (word : string) (v : pyval) :
  convert py_int py_float t word = Some v -> has_type t v.
Proof.
  destruct t; simpl.
  - intros [= <-]. exact I.
  - destruct (py_int word); intros [= <-]. exact I.
  - destruct (py_float word); intros [= <-]. exact I.
Qed.

Lemma initial_namespace_well_typed : well_typed [] initial_namespace.
Proof.
  intros a Ha. exists (default a).
  split; [|right; split; [reflexivity | apply not_elem_of_nil]].
  repeat (destruct Ha as [<-|Ha]; [vm_compute; reflexivity|]). destruct Ha.
Qed.

Lemma consume_well_typed (argv : list (string * string)) :
  forall (done : list string) (ns ns' : gmap string pyval),
    well_typed done ns ->
    consume py_int py_float argv ns = Some ns' ->
    well_typed (done ++ argv.*1) ns'.
Proof.
  induction argv as [|[opt word] argv IH]; intros done ns ns' Hwt H.
  - injection H as <-. simpl. rewrite app_nil_r. exact Hwt.
  - simpl in H.
    destruct (find_argument opt) as [b|] eqn:Hb; [|discriminate].
    destruct (convert py_int py_float (type_ b) word) as [v|] eqn:Hv;
      [|discriminate].
    apply find_argument_spec in Hb as [Hbin Hbopt].
    replace (done ++ ((opt, word) :: argv).*1)
      with ((done ++ [opt]) ++ argv.*1)
      by (rewrite <- app_assoc; reflexivity).
    eapply IH; [clear IH H | exact H].
    intros a Ha. destruct (decide (dest a = dest b)) as [Heq|Hne].
    + exists v. rewrite Heq, lookup_insert_eq. split; [reflexivity|]. left.
      assert (Hab : a = b \/ option_string a = option_string b)
        by (right; apply dest_injective; assumption).
      assert (Hty : type_ a = type_ b).
      { clear -Ha Hbin Heq.
        repeat (destruct Ha as [<-|Ha]; [|]); try destruct Ha;
          repeat (destruct Hbin as [<-|Hbin]; [|]); try destruct Hbin;
          (reflexivity || (vm_compute in Heq; discriminate Heq)). }
      rewrite Hty. exact (convert_has_type _ _ _ Hv).
    + destruct (Hwt a Ha) as (v' & Hlook & Hcase).
      exists v'. rewrite lookup_insert_ne by congruence.
      split; [exact Hlook|].
      destruct Hcase as [Hty|[Hdef Hout]]; [left; exact Hty|].
      right. split; [exact Hdef|].
      rewrite elem_of_app, list_elem_of_singleton.
      intros [Hin|Hopt]; [exact (Hout Hin)|].
      apply Hne. unfold dest. congruence.
Qed.

Lemma parse_args_namespace (argv : list (string * string))
    (ns : gmap string pyval) :
  parse_args py_int py_float argv = Ok ns -> is_Some (namespace_args ns).
Proof.
  unfold parse_args.
  destruct (consume py_int py_float argv initial_namespace) as [ns'|] eqn:Hc;
    [|discriminate].
  destruct (forallb _ parser) eqn:Hreq; [|discriminate]. intros [= ->].
  pose proof (consume_well_typed argv [] _ _ initial_namespace_well_typed Hc)
    as Hwt. simpl in Hwt.
  rewrite forallb_forall in Hreq.
  assert (Hall : forall a, In a parser ->
            exists v, ns !! dest a = Some v
                      /\ (has_type (type_ a) v
                          \/ (v = default a /\ required a = false))).
  { intros a Ha. destruct (Hwt a Ha) as (v & Hl & [Hty|[Hdef Hout]]).
    - exists v. auto.
    - exists v. split; [exact Hl|]. right. split; [exact Hdef|].
      specialize (Hreq a Ha). unfold seen in Hreq.
      rewrite bool_decide_eq_false_2 in Hreq by exact Hout.
      destruct (required a); [discriminate Hreq | reflexivity]. }
  assert (Hstr : forall a d, In a parser -> dest a = d -> type_ a = type_str ->
            (required a = false -> exists x, default a = PStr x) ->
            exists x, ns !! d = Some (PStr x)).
  { intros a d Ha <- Hty Hdef. destruct (Hall a Ha) as (v & Hl & Hcase).
    rewrite Hl, Hty in *.
    destruct Hcase as [Hv|[-> Hr]]; [destruct v; try contradiction; eauto|].
    destruct (Hdef Hr) as [x ->]. eauto. }
  assert (Hint : forall a d, In a parser -> dest a = d -> type_ a = type_int ->
            (exists x, default a = PInt x) ->
            exists x, ns !! d = Some (PInt x)).
  { intros a d Ha <- Hty [x Hdef]. destruct (Hall a Ha) as (v & Hl & Hcase).
    rewrite Hl, Hty in *.
    destruct Hcase as [Hv|[-> _]]; [destruct v; try contradiction; eauto|].
    rewrite Hdef. eauto. }
  assert (Hfloat : forall a d, In a parser -> dest a = d -> type_ a = type_float ->
            (exists x, default a = PFloat x) ->
            exists x, ns !! d = Some (PFloat x)).
  { intros a d Ha <- Hty [x Hdef]. destruct (Hall a Ha) as (v & Hl & Hcase).
    rewrite Hl, Hty in *.
    destruct Hcase as [Hv|[-> _]]; [destruct v; try contradiction; eauto|].
    rewrite Hdef. eauto. }
  destruct (Hstr {| option_string := "--unet_config_path"; type_ := type_str;
                    required := false; default := PStr "configs/unet.yaml" |}
              "unet_config_path") as [x1 H1];
    [simpl; tauto | reflexivity | reflexivity | intros _; eexists; reflexivity |].
  destruct (Hstr {| option_string := "--inference_ckpt_path"; type_ := type_str;
                    required := true; default := PNone |}
              "inference_ckpt_path") as [x2 H2];
    [simpl; tauto | reflexivity | reflexivity | discriminate |].
  destruct (Hstr {| option_string := "--video_path"; type_ := type_str;
                    required := true; default := PNone |}
              "video_path") as [x3 H3];
    [simpl; tauto | reflexivity | reflexivity | discriminate |].
  destruct (Hstr {| option_string := "--audio_path"; type_ := type_str;
                    required := true; default := PNone |}
              "audio_path") as [x4 H4];
    [simpl; tauto | reflexivity | reflexivity | discriminate |].
  destruct (Hstr {| option_string := "--video_out_path"; type_ := type_str;
                    required := true; default := PNone |}
              "video_out_path") as [x5 H5];
    [simpl; tauto | reflexivity | reflexivity | discriminate |].
  destruct (Hint {| option_string := "--inference_steps"; type_ := type_int;
                    required := false; default := PInt 20 |}
              "inference_steps") as [x6 H6];
    [simpl; tauto | reflexivity | reflexivity | eexists; reflexivity |].
  destruct (Hfloat {| option_string := "--guidance_scale"; type_ := type_float;
                      required := false; default := PFloat (FloatOfQ 1) |}
              "guidance_scale") as [x7 H7];
    [simpl; tauto | reflexivity | reflexivity | eexists; reflexivity |].
  destruct (Hint {| option_string := "--seed"; type_ := type_int;
                    required := false; default := PInt 1247 |}
              "seed") as [x8 H8];
    [simpl; tauto | reflexivity | reflexivity | eexists; reflexivity |].
  unfold namespace_args. rewrite H1, H2, H3, H4, H5, H6, H7, H8. eexists.
  reflexivity.
Qed.

End NamespaceFacts.

(** ** What [str.replace] does to an output path *)

Lemma prefix_mp4_no_dot (c : ascii) (s : string) :
  Ascii.eqb "." c = false -> String.prefix ".mp4" (String c s) = false.
Proof.
  intros Hc.
  change (String.prefix ".mp4" (String c s))
    with (if ascii_dec "." c then String.prefix "mp4" s else false).
  destruct (ascii_dec "." c) as [E|_]; [|reflexivity].
  subst c. rewrite Ascii.eqb_refl in Hc. discriminate.
Qed.

(** A path without a dot has no [.mp4] in it and is left as it is: the
    mask path then equals the output path. *)
Lemma str_replace_no_dot (s : string) :
  has_char "." s = false -> str_replace s ".mp4" "_mask.mp4" = s.
Proof.
  unfold str_replace. induction s as [|c s IH]; [reflexivity|].
  intros H. cbn [has_char] in H. apply orb_false_iff in H as [Hc Hs].
  cbn [replace_from]. rewrite (prefix_mp4_no_dot c s Hc), (IH Hs). reflexivity.
Qed.

(** The usual case: a name with the single extension [.mp4]. *)
Lemma str_replace_mp4_extension (stem : string) :
  has_char "." stem = false ->
  str_replace (stem +:+ ".mp4") ".mp4" "_mask.mp4" = stem +:+ "_mask.mp4".
Proof.
  unfold str_replace. induction stem as [|c stem IH]; [reflexivity|].
  intros H. cbn [has_char] in H. apply orb_false_iff in H as [Hc Hs].
  change (String c stem +:+ ".mp4") with (String c (stem +:+ ".mp4")).
  change (String c stem +:+ "_mask.mp4") with (String c (stem +:+ "_mask.mp4")).
  cbn [replace_from].
  rewrite (prefix_mp4_no_dot c _ Hc), (IH Hs). reflexivity.
Qed.

(** Every occurrence is replaced, not only the extension. *)
Lemma str_replace_every_occurrence :
  str_replace "clip.mp4.mp4" ".mp4" "_mask.mp4" = "clip_mask.mp4_mask.mp4".
Proof. reflexivity. Qed.

(** ** Equality with a number, and decoding, on examples *)

Lemma py_eq_int_examples :
  py_eq_int (PInt 768) 768 = true
  /\ py_eq_int (PFloat (FloatOfQ (768 # 1))) 768 = true
  /\ py_eq_int (PFloat (FloatOfQ (1536 # 2))) 768 = true
  /\ py_eq_int (PStr "768") 768 = false
  /\ py_eq_int (PBool true) 768 = false
  /\ py_eq_int PNone 384 = false.
Proof. repeat split. Qed.

Lemma utf8_decode_examples :
  utf8_decode [x68; x69] = Some [104%N; 105%N]
  /\ utf8_decode [xc3; xa9] = Some [233%N]
  /\ utf8_decode [xe2; x82; xac] = Some [8364%N]
  /\ utf8_decode [xf0; x9f; x98; x80] = Some [128512%N]
  /\ utf8_decode [xff] = None
  /\ utf8_decode [xc3] = None
  /\ utf8_decode [xc0; x80] = None
  /\ utf8_decode [xed; xa0; x80] = None
  /\ utf8_decode [xf4; x90; x80; x80] = None.
Proof. repeat split. Qed.

(** ** The whole program on a sample command line *)

Lemma script_sample_run :
  res (script (fun _ => None) (fun _ => None) world_ok true sample_argv
         {["CodeFormer"]})
  = Ok tt
  /\ spawned (trace (script (fun _ => None) (fun _ => None) world_ok true
                       sample_argv {["CodeFormer"]}))
     = [extract_command sample_args; gfpgan_command; codeformer_command;
        encode_command]
  /\ List.filter is_audio_encoder_init
       (trace (script (fun _ => None) (fun _ => None) world_ok true
                 sample_argv {["CodeFormer"]}))
     = [Audio2FeatureInit "checkpoints/whisper/tiny.pt" "cuda" (PInt 16)].
Proof. repeat split; vm_compute; reflexivity. Qed.

(** ** The bootstrap in every world *)

(** X1.  The bootstrap starts the shell-outs it needs in order and stops
    after the first one that exits with a non-zero status; it returns
    normally exactly when every shell-out it needs exits with status 0. *)
Theorem bootstrap_runs_plan_until_failure (w : World) (fs : gset string) :
  spawned (trace (bootstrap w fs)) = until_failure w (bootstrap_plan w fs)
  /\ (res (bootstrap w fs) = Ok tt
      <-> Forall (fun cmd => returncode (exec w cmd) = 0) (bootstrap_plan w fs)).
Proof.
  rewrite bootstrap_run, check_gfpgan_run, check_codeformer_run.
  unfold checked, bootstrap_plan, stage_events. cbv zeta.
  destruct (gfpgan_importable w);
    [|destruct (returncode (exec w (pip_install_gfpgan w)) =? 0) eqn:Hpip];
    (destruct (bool_decide ("CodeFormer" ∈ fs));
     [|destruct (returncode (exec w git_clone_codeformer) =? 0) eqn:Hclone;
       [destruct (returncode (exec w (pip_install_requirements w)) =? 0) eqn:Hreq|]]);
    cbn [res trace fs_out app spawned until_failure];
    rewrite ?Hpip, ?Hclone, ?Hreq; cbn [spawned until_failure app];
    (split; [reflexivity|]);
    repeat match goal with
           | H : (_ =? 0) = true |- _ => apply Z.eqb_eq in H
           | H : (_ =? 0) = false |- _ => apply Z.eqb_neq in H
           end;
    (split;
     [intros Hres; try discriminate Hres; repeat constructor; assumption
     | intros Hall; try reflexivity;
       repeat match goal with
              | H : Forall _ (_ :: _) |- _ =>
                  apply Forall_cons_1 in H; destruct H
              end; contradiction]).
Qed.

(** ** The parser on every command line *)

Section ParserMore.

Variable py_int : string -> option Z.
Variable py_float : string -> option pyfloat.

Lemma option_string_injective (a b : Argument) :
  In a parser -> In b parser -> option_string a = option_string b -> a = b.
Proof.
  intros Ha Hb.
  repeat (destruct Ha as [<-|Ha]; [|]); try destruct Ha;
    repeat (destruct Hb as [<-|Hb]; [|]); try destruct Hb;
    cbn [option_string]; intros H; (reflexivity || discriminate H).
Qed.

Lemma find_argument_declared (a : Argument) :
  In a parser -> find_argument (option_string a) = Some a.
Proof.
  intros Ha. destruct (find_argument (option_string a)) as [b|] eqn:Hb.
  - apply find_argument_spec in Hb as [Hbin Hbopt].
    f_equal. apply option_string_injective; assumption.
  - exfalso. pose proof (List.find_none _ _ Hb a Ha) as Hno. cbv beta in Hno.
    rewrite String.eqb_refl in Hno. discriminate.
Qed.

Lemma required_seen (argv : list (string * string)) :
  forallb (fun a => negb (required a) || seen argv a) parser = true
  <-> Forall (fun opt => opt ∈ argv.*1)
        ["--inference_ckpt_path"; "--video_path"; "--audio_path";
         "--video_out_path"].
Proof.
  unfold parser, seen. cbn [forallb required option_string negb orb].
  repeat case_bool_decide; cbn [andb]; split; intros Hall;
    try discriminate Hall; try reflexivity;
    try (repeat constructor; assumption);
    repeat match goal with
           | F : Forall _ (_ :: _) |- _ => apply Forall_cons_1 in F; destruct F
           end; contradiction.
Qed.

Lemma parse_args_raise (argv : list (string * string)) (e : exn) :
  parse_args py_int py_float argv = Raise e -> e = SystemExit 2.
Proof.
  unfold parse_args.
  destruct (consume py_int py_float argv initial_namespace);
    [destruct (forallb _ parser)|];
    intros H; try discriminate H; injection H as <-; reflexivity.
Qed.

Lemma conventional_cons (p : string * string) (argv : list (string * string)) :
  conventional (p :: argv) = true ->
  (exists a, find_argument p.1 = Some a) /\ conventional argv = true.
Proof.
  unfold conventional. cbn [forallb]. intros H.
  apply andb_true_iff in H as [Hp Hrest]. split; [|exact Hrest].
  destruct (find_argument p.1) as [a|]; [eauto | discriminate Hp].
Qed.

(** On a conventional command line the scan goes through exactly when
    every value passes the [type] of its option. *)
Lemma conventional_scan (argv : list (string * string)) :
  conventional argv = true ->
  forall ns,
    is_Some (consume py_int py_float argv ns)
    <-> Forall (fun p => forall a, find_argument p.1 = Some a ->
                  is_Some (convert py_int py_float (type_ a) p.2)) argv.
Proof.
  induction argv as [|[opt word] argv IH]; intros Hconv ns.
  - split; [constructor | cbn [consume]; eauto].
  - apply conventional_cons in Hconv as [[a Ha] Hrest].
    cbn [fst snd] in Ha. cbn [consume]. rewrite Ha. split.
    + intros H.
      destruct (convert py_int py_float (type_ a) word) as [v|] eqn:Hv;
        [|destruct H; discriminate].
      constructor; [|exact (proj1 (IH Hrest _) H)].
      cbn [fst snd]. intros a' Ha'. rewrite Ha in Ha'. injection Ha' as <-.
      rewrite Hv. eauto.
    + intros H. apply Forall_cons_1 in H as [Hv Hall].
      destruct (Hv a Ha) as [v Hv']. cbn [snd] in Hv'. rewrite Hv'.
      exact (proj2 (IH Hrest _) Hall).
Qed.

(** X2.  On a command line in plain form (every option one of the eight
    declared ones, spelled in full and followed by its value, and no value
    that looks like an option), the parser accepts exactly when
    every value passes the [type] of its option and the four required
    options all occur; it rejects every other such command line with exit
    status 2. *)
Theorem parse_args_accepts_iff (argv : list (string * string)) :
  conventional argv = true ->
  ((exists ns, parse_args py_int py_float argv = Ok ns)
   <-> Forall (fun p => forall a, find_argument p.1 = Some a ->
                 is_Some (convert py_int py_float (type_ a) p.2)) argv
       /\ Forall (fun opt => opt ∈ argv.*1)
            ["--inference_ckpt_path"; "--video_path"; "--audio_path";
             "--video_out_path"])
  /\ (forall e, parse_args py_int py_float argv = Raise e -> e = SystemExit 2).
Proof.
  intros Hconv. unfold parse_args.
  pose proof (conventional_scan argv Hconv initial_namespace) as Hscan.
  pose proof (required_seen argv) as Hreq.
  destruct (consume py_int py_float argv initial_namespace) as [ns|].
  - destruct (forallb _ parser).
    + split; [|discriminate].
      split; [intros _; split; [apply Hscan; eauto | apply Hreq; reflexivity]
             | eauto].
    + split; [|intros e [= <-]; reflexivity].
      split; [intros [? [=]] | intros [_ H]; apply Hreq in H; discriminate].
  - split; [|intros e [= <-]; reflexivity].
    split; [intros [? [=]] | intros [H _]; apply Hscan in H as [? [=]]].
Qed.

Lemma consume_last (a : Argument) (word : string)
    (after : list (string * string)) :
  In a parser -> option_string a ∉ after.*1 ->
  forall (before : list (string * string)) (ns ns' : gmap string pyval),
    consume py_int py_float (before ++ (option_string a, word) :: after) ns
    = Some ns' ->
    exists v, convert py_int py_float (type_ a) word = Some v
              /\ ns' !! dest a = Some v.
Proof.
  intros Ha Hout before.
  induction before as [|[opt w'] before IH]; intros ns ns' H; simpl in H.
  - rewrite (find_argument_declared a Ha) in H.
    destruct (convert py_int py_float (type_ a) word) as [v|]; [|discriminate].
    exists v. split; [reflexivity|].
    rewrite (consume_untouched py_int py_float a Ha _ _ _ Hout H).
    apply lookup_insert_eq.
  - destruct (find_argument opt) as [b|]; [|discriminate].
    destruct (convert py_int py_float (type_ b) w') as [v|]; [|discriminate].
    exact (IH _ _ H).
Qed.

(** X3.  An option given more than once takes its last value: on an
    accepted command line the attribute of an option holds the converted
    value of the last occurrence of that option. *)
Theorem last_occurrence_wins
    (a : Argument) (word : string) (before after : list (string * string))
    (ns : gmap string pyval) :
  In a parser ->
  option_string a ∉ after.*1 ->
  parse_args py_int py_float (before ++ (option_string a, word) :: after)
  = Ok ns ->
  exists v, convert py_int py_float (type_ a) word = Some v
            /\ ns !! dest a = Some v.
Proof.
  intros Ha Hout H. unfold parse_args in H.
  destruct (consume py_int py_float _ initial_namespace) as [ns'|] eqn:Hc;
    [|discriminate].
  destruct (forallb _ parser); [|discriminate]. injection H as <-.
  exact (consume_last a word after Ha Hout before _ _ Hc).
Qed.

End ParserMore.

(** ** The module from top to bottom *)

Lemma bootstrap_fs (w : World) (fs : gset string) :
  fs_out (bootstrap w fs) = fs.
Proof.
  rewrite bootstrap_run, check_gfpgan_run, check_codeformer_run.
  unfold checked. cbv zeta.
  repeat match goal with
         | |- context [if ?c then _ else _] => destruct c
         end; reflexivity.
Qed.

Lemma namespace_args_unet_config_path (ns : gmap string pyval) (args : Args) :
  namespace_args ns = Some args ->
  ns !! "unet_config_path" = Some (PStr (unet_config_path args)).
Proof.
  unfold namespace_args. intros H.
  repeat match type of H with
         | match ?x with _ => _ end = _ => destruct x; try discriminate H
         end.
  injection H as <-. reflexivity.
Qed.

Section WholeModule.

Variable py_int : string -> option Z.
Variable py_float : string -> option pyfloat.
Variable w : World.

(** X4.  Arguments are parsed after the bootstrap: a command line that the
    parser rejects ends the program with exit status 2 only once the
    bootstrap has made its shell-outs; no configuration is loaded and
    [main] is not entered. *)
Theorem rejected_command_line_after_bootstrap
    (argv : list (string * string)) (fs : gset string) (e : exn) :
  res (bootstrap w fs) = Ok tt ->
  parse_args py_int py_float argv = Raise e ->
  script py_int py_float w true argv fs
  = Run (trace (bootstrap w fs)) fs (Raise (SystemExit 2)).
Proof.
  intros Hboot Hparse.
  assert (e = SystemExit 2) as ->
    by exact (parse_args_raise py_int py_float argv e Hparse).
  unfold script.
  rewrite (bind_ok _ _ fs fs (trace (bootstrap w fs)) tt)
    by (rewrite (run_eta (bootstrap w fs)) at 1;
        rewrite Hboot, bootstrap_fs; reflexivity).
  unfold lift. rewrite bind_run; cbn [res trace fs_out]. rewrite Hparse.
  cbn [trace fs_out]. rewrite app_nil_r. reflexivity.
Qed.

(** X5.  With the bootstrap done and the command line accepted, the
    program loads the configuration named by [--unet_config_path]
    ([configs/unet.yaml] when the flag is omitted) and then runs [main] on
    that configuration and the parsed arguments; it ends as [main] ends. *)
Theorem script_runs_main_on_loaded_config
    (argv : list (string * string)) (fs : gset string)
    (ns : gmap string pyval) :
  res (bootstrap w fs) = Ok tt ->
  parse_args py_int py_float argv = Ok ns ->
  exists args,
    namespace_args ns = Some args
    /\ ("--unet_config_path" ∉ argv.*1 ->
        unet_config_path args = "configs/unet.yaml")
    /\ script py_int py_float w true argv fs
       = Run (trace (bootstrap w fs)
                ++ OmegaConfLoad (unet_config_path args)
                :: trace (main w (omegaconf_load w (unet_config_path args))
                            args fs))
           (fs_out (main w (omegaconf_load w (unet_config_path args)) args fs))
           (res (main w (omegaconf_load w (unet_config_path args)) args fs)).
Proof.
  intros Hboot Hparse.
  destruct (parse_args_namespace py_int py_float argv ns Hparse) as [args Hargs].
  exists args. split; [exact Hargs|]. split.
  - intros Hout.
    pose proof (namespace_args_unet_config_path ns args Hargs) as Hl.
    unfold parse_args in Hparse.
    destruct (consume py_int py_float argv initial_namespace) as [ns'|] eqn:Hc;
      [|discriminate].
    destruct (forallb _ parser); [|discriminate]. injection Hparse as ->.
    apply (consume_untouched py_int py_float
             {| option_string := "--unet_config_path"; type_ := type_str;
                required := false; default := PStr "configs/unet.yaml" |})
      in Hc; [|simpl; tauto | exact Hout].
    change (ns !! "unet_config_path" = Some (PStr "configs/unet.yaml")) in Hc.
    congruence.
  - unfold script.
    rewrite (bind_ok _ _ fs fs (trace (bootstrap w fs)) tt)
      by (rewrite (run_eta (bootstrap w fs)) at 1;
          rewrite Hboot, bootstrap_fs; reflexivity).
    unfold lift. rewrite bind_run; cbn [res trace fs_out]. rewrite Hparse.
    cbn [trace fs_out app]. rewrite Hargs.
    rewrite bind_run; cbn [emit res trace fs_out app]. reflexivity.
Qed.

End WholeModule.

(** ** [main] in every world *)

(** X6.  [main] returns normally only if the dimension is 768 or 384, the
    seed is -1 or lies between 0 and 2**32 - 1, and each of the four tools
    either exited with status 0 or left a stderr that is well-formed
    UTF-8. *)
Theorem main_returns_only_if
    (w : World) (cfg : Config) (args : Args) (fs : gset string) :
  res (main w cfg args fs) = Ok tt ->
  supported cfg = true
  /\ (seed args = -1 \/ 0 <= seed args < 2 ^ 32)
  /\ all_reported w args = true.
Proof.
  intros Hok.
  apply main_returns_iff in Hok as (Hs & Ha & H1 & H2 & H3 & H4).
  split; [exact Hs|]. split; [apply seed_accepted_spec, Ha|].
  unfold all_reported. rewrite H1, H2, H3, H4. reflexivity.
Qed.

Lemma In_postprocess_event (w : World) (args : Args) (fs : gset string)
    (e : event) :
  In e (trace (postprocess w args fs)) -> is_postprocess_event e = true.
Proof.
  intros Hin. pose proof (postprocess_events w args fs) as Hall.
  rewrite List.Forall_forall in Hall. exact (Hall e Hin).
Qed.

(** Where an event of a run of [main] comes from. *)
Lemma In_main_trace (w : World) (cfg : Config) (args : Args) (fs : gset string)
    (e : event) :
  In e (trace (main w cfg args fs)) ->
  (supported cfg = false
   /\ In e [Print ("Input video path: " +:+ video_path args);
            Print ("Input audio path: " +:+ audio_path args);
            Print ("Loaded checkpoint path: " +:+ inference_ckpt_path args);
            SchedulerFromPretrained "configs"])
  \/ (supported cfg = true
      /\ exists path,
          whisper_model_path cfg = Some path
          /\ (In e (prelude w cfg args path)
              \/ e = PipelineInvoked (pipeline_call w cfg args)
              \/ In e (trace (postprocess w args fs)))).
Proof.
  intros Hin.
  destruct (main_cases w cfg args fs)
    as [[Hs E]|[(Hs & _ & path & Hp & E)|(Hs & _ & path & Hp & E)]];
    rewrite E in Hin; cbn [trace] in Hin.
  - left. split; [exact Hs | exact Hin].
  - right. split; [exact Hs|]. exists path. split; [exact Hp|].
    left. unfold prelude. apply in_or_app. left. exact Hin.
  - right. split; [exact Hs|]. exists path. split; [exact Hp|].
    apply in_app_or in Hin as [Hin|[Hin|Hin]]; auto.
Qed.

Lemma In_prelude (w : World) (cfg : Config) (args : Args) (path : string)
    (e : event) :
  In e (prelude w cfg args path) ->
  In e [Print ("Input video path: " +:+ video_path args);
        Print ("Input audio path: " +:+ audio_path args);
        Print ("Loaded checkpoint path: " +:+ inference_ckpt_path args);
        SchedulerFromPretrained "configs";
        Audio2FeatureInit path "cuda" (data_num_frames cfg);
        VaeFromPretrained "stabilityai/sd-vae-ft-mse" (select_dtype w);
        VaeSetScalingFactor (FloatOfQ (18215 # 100000));
        VaeSetShiftFactor 0;
        UNetFromPretrained (model_cross_attention_dim cfg)
          (inference_ckpt_path args) "cpu";
        UNetToDtype (select_dtype w);
        LipsyncPipelineInit;
        PipelineToDevice "cuda";
        (if seed args =? -1 then TorchSeed else SetSeed (seed args));
        PrintInitialSeed]
  \/ (e = UNetEnableXformers /\ xformers_available w = true).
Proof.
  unfold prelude, setup. destruct (xformers_available w); cbn [app In]; intros H.
  - repeat (destruct H as [H|H]; [auto 20|]); try contradiction.
    all: left; cbn [In]; auto 20.
  - left. cbn [In]. tauto.
Qed.

Lemma select_dtype_float16 (w : World) :
  select_dtype w = float16
  <-> cuda_is_available w = true /\ 7 < cuda_capability_major w.
Proof.
  unfold select_dtype.
  destruct (cuda_is_available w); cbn [andb];
    [destruct (7 <? cuda_capability_major w) eqn:Hc|].
  - apply Z.ltb_lt in Hc. tauto.
  - apply Z.ltb_ge in Hc. split; [discriminate | intros [_ H]; lia].
  - split; [discriminate | intros [H _]; discriminate H].
Qed.

(** X7.  One dtype throughout: the dtype the VAE is loaded with, the dtype
    the U-Net is cast to and the [weight_dtype] handed to the pipeline are
    the same, [float16] exactly when CUDA is available and the major
    compute capability is above 7, [float32] otherwise. *)
Theorem one_dtype_throughout
    (w : World) (cfg : Config) (args : Args) (fs : gset string)
    (e : event) (d : dtype) :
  In e (trace (main w cfg args fs)) ->
  event_dtype e = Some d ->
  (d = float16 <-> cuda_is_available w = true /\ 7 < cuda_capability_major w).
Proof.
  intros Hin Hd. rewrite <- select_dtype_float16.
  assert (d = select_dtype w) as ->; [|reflexivity].
  apply In_main_trace in Hin as [[_ Hin]|(_ & path & _ & [Hin|[->|Hin]])].
  - cbn [In] in Hin.
    repeat (destruct Hin as [<-|Hin]; [discriminate Hd|]). destruct Hin.
  - apply In_prelude in Hin as [Hin|[-> _]]; [|discriminate Hd].
    cbn [In] in Hin.
    repeat (destruct Hin as [<-|Hin];
            [first [discriminate Hd | injection Hd as <-; reflexivity
                   | destruct (seed args =? -1); discriminate Hd]|]).
    destruct Hin.
  - injection Hd as <-. reflexivity.
  - apply In_postprocess_event in Hin. destruct e; discriminate.
Qed.

(** X8.  Memory-efficient attention is switched on in exactly the runs
    that pass the dimension test on a machine where xformers is
    available. *)
Theorem xformers_enabled_iff
    (w : World) (cfg : Config) (args : Args) (fs : gset string) :
  In UNetEnableXformers (trace (main w cfg args fs))
  <-> supported cfg = true /\ xformers_available w = true.
Proof.
  split.
  - intros Hin.
    apply In_main_trace in Hin as [[_ Hin]|(Hs & path & _ & [Hin|[Hin|Hin]])].
    + cbn [In] in Hin.
      repeat (destruct Hin as [Hin|Hin]; [discriminate Hin|]). destruct Hin.
    + apply In_prelude in Hin as [Hin|[_ Hx]]; [|auto].
      cbn [In] in Hin.
      repeat (destruct Hin as [Hin|Hin];
              [first [discriminate Hin
                     | destruct (seed args =? -1); discriminate Hin]|]).
      destruct Hin.
    + discriminate Hin.
    + apply In_postprocess_event in Hin. discriminate Hin.
  - intros [Hs Hx].
    assert (Hsetup : forall path,
               In UNetEnableXformers (setup w cfg args path)).
    { intros path. unfold setup. rewrite Hx. cbn [app In]. auto 20. }
    destruct (main_cases w cfg args fs)
      as [[Hu _]|[(_ & _ & path & _ & E)|(_ & _ & path & _ & E)]];
      [congruence| |]; rewrite E; cbn [trace].
    + apply Hsetup.
    + apply in_or_app. left. unfold prelude. apply in_or_app. left.
      apply Hsetup.
Qed.

(** X9.  The audio encoder and the pipeline are given the same number of
    frames, the pipeline's width equals its height, and the U-Net is read
    from the checkpoint named on the command line. *)
Theorem encoder_unet_and_pipeline_agree
    (w : World) (cfg : Config) (args : Args) (fs : gset string)
    (c : PipelineCall) :
  In (PipelineInvoked c) (trace (main w cfg args fs)) ->
  call_width c = call_height c
  /\ (forall path device n,
        In (Audio2FeatureInit path device n) (trace (main w cfg args fs)) ->
        n = call_num_frames c)
  /\ (forall dim ckpt device,
        In (UNetFromPretrained dim ckpt device) (trace (main w cfg args fs)) ->
        ckpt = inference_ckpt_path args /\ dim = model_cross_attention_dim cfg).
Proof.
  intros Hc. apply in_split in Hc as (pre & post & E).
  destruct (invocation_split w cfg args fs pre c post E) as (-> & _).
  clear E pre post. split; [reflexivity|]. split.
  - intros path device n Hin.
    apply In_main_trace in Hin as [[_ Hin]|(_ & p & _ & [Hin|[Hin|Hin]])].
    + cbn [In] in Hin.
      repeat (destruct Hin as [Hin|Hin]; [discriminate Hin|]). destruct Hin.
    + apply In_prelude in Hin as [Hin|[Hin _]]; [|discriminate Hin].
      cbn [In] in Hin.
      repeat (destruct Hin as [Hin|Hin];
              [first [discriminate Hin | injection Hin as _ _ <-; reflexivity
                     | destruct (seed args =? -1); discriminate Hin]|]).
      destruct Hin.
    + discriminate Hin.
    + apply In_postprocess_event in Hin. discriminate Hin.
  - intros dim ckpt device Hin.
    apply In_main_trace in Hin as [[_ Hin]|(_ & p & _ & [Hin|[Hin|Hin]])].
    + cbn [In] in Hin.
      repeat (destruct Hin as [Hin|Hin]; [discriminate Hin|]). destruct Hin.
    + apply In_prelude in Hin as [Hin|[Hin _]]; [|discriminate Hin].
      cbn [In] in Hin.
      repeat (destruct Hin as [Hin|Hin];
              [first [discriminate Hin
                     | injection Hin as <- <- _; split; reflexivity
                     | destruct (seed args =? -1); discriminate Hin]|]).
      destruct Hin.
    + discriminate Hin.
    + apply In_postprocess_event in Hin. discriminate Hin.
Qed.

(** X10.  A dimension that is not a number is rejected: a string (even one
    that spells 768), a boolean or null ends [main] with
    [NotImplementedError] before any external program is started. *)
Theorem non_numeric_dimension_rejected
    (w : World) (cfg : Config) (args : Args) (fs : gset string) :
  (forall z, model_cross_attention_dim cfg <> PInt z) ->
  (forall f, model_cross_attention_dim cfg <> PFloat f) ->
  res (main w cfg args fs)
  = Raise (NotImplementedError "cross_attention_dim must be 768 or 384")
  /\ spawned (trace (main w cfg args fs)) = [].
Proof.
  intros Hint Hfloat.
  assert (Hs : supported cfg = false).
  { unfold supported, py_eq_int.
    destruct (model_cross_attention_dim cfg) as [z|f|s|[]|];
      try reflexivity; [destruct (Hint z) | destruct (Hfloat f)]; reflexivity. }
  rewrite (main_unsupported w cfg args fs Hs). split; reflexivity.
Qed.

(** ** The frame directories in every run *)

Lemma main_created_prefix
    (w : World) (cfg : Config) (args : Args) (fs : gset string) :
  exists k,
    created (trace (main w cfg args fs))
    = List.filter (fun d => negb (bool_decide (d ∈ fs)))
        (take k [frames_dir; enhanced_frames_dir; final_frames_dir]).
Proof.
  destruct (supported cfg) eqn:Hs;
    [destruct (seed_accepted args) eqn:Ha|].
  - destruct (main_process_events w cfg args fs Hs Ha) as (_ & -> & _).
    destruct (postprocess_run w args fs)
      as (t1 & t2 & t3 & t4 & S1 & S2 & S3 & S4 & E).
    apply step_of_created in S1, S2, S3, S4.
    cbn [List.filter] in S1, S2, S3, S4.
    rewrite (absent_after_other enhanced_frames_dir frames_dir) in S2
      by discriminate.
    rewrite (absent_after_other final_frames_dir enhanced_frames_dir),
            (absent_after_other final_frames_dir frames_dir) in S3
      by discriminate.
    rewrite E.
    destruct (reported (exec w (extract_command args)));
      [destruct (reported (exec w gfpgan_command));
       [destruct (reported (exec w codeformer_command))|]|];
      cbn [trace].
    + exists 3%nat. rewrite !created_app, S1, S2, S3, S4.
      cbn [take List.filter].
      destruct (bool_decide (frames_dir ∈ fs)),
               (bool_decide (enhanced_frames_dir ∈ fs)),
               (bool_decide (final_frames_dir ∈ fs)); reflexivity.
    + exists 3%nat. rewrite !created_app, S1, S2, S3.
      cbn [take List.filter].
      destruct (bool_decide (frames_dir ∈ fs)),
               (bool_decide (enhanced_frames_dir ∈ fs)),
               (bool_decide (final_frames_dir ∈ fs)); reflexivity.
    + exists 2%nat. rewrite !created_app, S1, S2.
      cbn [take List.filter].
      destruct (bool_decide (frames_dir ∈ fs)),
               (bool_decide (enhanced_frames_dir ∈ fs)); reflexivity.
    + exists 1%nat. rewrite S1. reflexivity.
  - exists 0%nat.
    destruct (main_stopped_early w cfg args fs (or_intror Ha)) as (_ & -> & _).
    reflexivity.
  - exists 0%nat.
    destruct (main_stopped_early w cfg args fs (or_introl Hs)) as (_ & -> & _).
    reflexivity.
Qed.

Lemma List_filter_sublist {A} (P : A -> bool) (l : list A) :
  List.filter P l `sublist_of` l.
Proof.
  induction l as [|x l IH]; cbn [List.filter]; [constructor|].
  destruct (P x); [apply sublist_skip | apply sublist_cons]; exact IH.
Qed.

(** X11.  [main] creates nothing but the three frame directories: in every
    run, rejected, cut short or complete, the directories created are some
    of [temp_frames], [enhanced_frames] and [final_frames], each at most
    once and in this order, and none of them was there when the run
    began. *)
Theorem main_creates_only_frame_directories
    (w : World) (cfg : Config) (args : Args) (fs : gset string) :
  created (trace (main w cfg args fs))
    `sublist_of` [frames_dir; enhanced_frames_dir; final_frames_dir]
  /\ Forall (fun d => d ∉ fs) (created (trace (main w cfg args fs))).
Proof.
  destruct (main_created_prefix w cfg args fs) as [k ->]. split.
  - etransitivity; [apply List_filter_sublist | apply sublist_take].
  - apply List.Forall_forall. intros d Hd.
    apply List.filter_In in Hd as [_ Hd].
    apply negb_true_iff in Hd. exact (bool_decide_eq_false_1 _ Hd).
Qed.

Lemma spawn_contexts_app (t1 t2 : list event) :
  forall made,
    spawn_contexts made (t1 ++ t2)
    = spawn_contexts made t1 ++ spawn_contexts (made ++ created t1) t2.
Proof.
  induction t1 as [|e t1 IH]; intros made; cbn [app].
  - cbn [spawn_contexts created app]. rewrite app_nil_r. reflexivity.
  - destruct e; cbn [spawn_contexts created]; rewrite IH;
      rewrite <- ?app_assoc; reflexivity.
Qed.

Lemma spawn_contexts_split (pre post : list event) (cmd : list string) :
  forall made,
    In (cmd, made ++ created pre)
       (spawn_contexts made (pre ++ Spawn cmd :: post)).
Proof.
  intros made. rewrite spawn_contexts_app. apply in_or_app. right.
  left. reflexivity.
Qed.

Lemma spawn_contexts_step (w : World) (dirs : list string)
    (announce success failure : string) (cmd : list string)
    (fs : gset string) (made : list string) :
  spawn_contexts made (step_trace w dirs announce cmd success failure fs)
  = [(cmd, made ++ List.filter (fun d => negb (bool_decide (d ∈ fs))) dirs)].
Proof.
  unfold step_trace. rewrite spawn_contexts_app, guard_events_created.
  assert (Hguard : forall m,
            spawn_contexts m
              (flat_map (fun d => if bool_decide (d ∈ fs) then []
                                  else [Makedirs d]) dirs) = []).
  { induction dirs as [|d dirs IH]; intros m; [reflexivity|].
    cbn [flat_map]. destruct (bool_decide (d ∈ fs)); cbn [app spawn_contexts];
      apply IH. }
  rewrite Hguard. cbn [app spawn_contexts stage_events].
  destruct (returncode (exec w cmd) =? 0);
    [|destruct (utf8_decode (stderr (exec w cmd)))]; reflexivity.
Qed.

Lemma spawn_contexts_step_of (w : World) (dirs : list string)
    (cmd : list string) (fs : gset string) (t : list event)
    (made : list string) :
  step_of w dirs cmd fs t ->
  spawn_contexts made t
  = [(cmd, made ++ List.filter (fun d => negb (bool_decide (d ∈ fs))) dirs)].
Proof. intros (a & s & f & ->). apply spawn_contexts_step. Qed.

(** X12.  When a tool of the chain is started, the directories it is
    pointed at exist: each was there before the run or has been created
    earlier in the run. *)
Theorem directories_exist_when_tool_starts
    (w : World) (cfg : Config) (args : Args) (fs : gset string)
    (pre post : list event) (cmd : list string) (d : string) :
  trace (main w cfg args fs) = pre ++ Spawn cmd :: post ->
  In (cmd, d) (works_in args) ->
  d ∈ fs \/ In d (created pre).
Proof.
  intros E Hd.
  pose proof (spawn_contexts_split pre post cmd []) as Hctx.
  rewrite <- E in Hctx. cbn [app] in Hctx.
  destruct (main_cases w cfg args fs)
    as [[_ Em]|[(_ & _ & path & _ & Em)|(_ & _ & path & _ & Em)]];
    [rewrite Em in Hctx; destruct Hctx
    |rewrite Em in Hctx; cbn [trace] in Hctx; exfalso; revert Hctx;
     unfold setup; destruct (xformers_available w); intros []
    |].
  destruct (prelude_facts w cfg args path) as (_ & _ & _ & Hproc & Hmade & _).
  rewrite Em in Hctx; cbn [trace] in Hctx.
  rewrite spawn_contexts_app, Hmade in Hctx.
  assert (Hnone : spawn_contexts [] (prelude w cfg args path) = []).
  { unfold prelude, setup.
    destruct (xformers_available w), (seed args =? -1); reflexivity. }
  rewrite Hnone in Hctx. cbn [app spawn_contexts] in Hctx.
  destruct (postprocess_run w args fs)
    as (t1 & t2 & t3 & t4 & S1 & S2 & S3 & S4 & Ep).
  pose proof (step_of_created _ _ _ _ _ S1) as C1.
  pose proof (step_of_created _ _ _ _ _ S2) as C2.
  pose proof (step_of_created _ _ _ _ _ S3) as C3.
  cbn [List.filter] in C1, C2, C3.
  rewrite (absent_after_other enhanced_frames_dir frames_dir) in C2
    by discriminate.
  rewrite (absent_after_other final_frames_dir enhanced_frames_dir),
          (absent_after_other final_frames_dir frames_dir) in C3
    by discriminate.
  assert (Hall :
    In (cmd, created pre)
       [(extract_command args,
         List.filter (fun x => negb (bool_decide (x ∈ fs))) [frames_dir]);
        (gfpgan_command,
         List.filter (fun x => negb (bool_decide (x ∈ fs)))
           [frames_dir; enhanced_frames_dir]);
        (codeformer_command,
         List.filter (fun x => negb (bool_decide (x ∈ fs)))
           [frames_dir; enhanced_frames_dir; final_frames_dir]);
        (encode_command,
         List.filter (fun x => negb (bool_decide (x ∈ fs)))
           [frames_dir; enhanced_frames_dir; final_frames_dir])]).
  { rewrite Ep in Hctx. clear Ep.
    assert (Hk : forall m t, spawn_contexts m t = spawn_contexts m t)
      by reflexivity.
    destruct (reported (exec w (extract_command args)));
      [destruct (reported (exec w gfpgan_command));
       [destruct (reported (exec w codeformer_command))|]|];
      cbn [trace] in Hctx;
      rewrite ?spawn_contexts_app, ?created_app in Hctx;
      rewrite (spawn_contexts_step_of _ _ _ _ _ _ S1) in Hctx;
      rewrite ?(spawn_contexts_step_of _ _ _ _ _ _ S2),
              ?(spawn_contexts_step_of _ _ _ _ _ _ S3),
              ?(spawn_contexts_step_of _ _ _ _ _ _ S4) in Hctx;
      rewrite ?C1, ?C2, ?C3 in Hctx;
      cbn [List.filter app In] in Hctx |- *;
      repeat rewrite (absent_after_other enhanced_frames_dir frames_dir) in Hctx
        by discriminate;
      repeat rewrite (absent_after_other final_frames_dir enhanced_frames_dir) in Hctx
        by discriminate;
      repeat rewrite (absent_after_other final_frames_dir frames_dir) in Hctx
        by discriminate;
      destruct (bool_decide (frames_dir ∈ fs)),
               (bool_decide (enhanced_frames_dir ∈ fs)),
               (bool_decide (final_frames_dir ∈ fs));
      cbn [negb app List.filter] in Hctx |- *; rewrite ?app_nil_r in Hctx;
      tauto. }
  clear Hctx.
  unfold works_in, extract_command, gfpgan_command, codeformer_command,
    encode_command in *.
  cbn [In] in Hall, Hd.
  destruct Hall as [Hc|[Hc|[Hc|[Hc|[]]]]]; injection Hc as <- <-;
    repeat (destruct Hd as [Hd|Hd];
            [first [injection Hd as Hcmd _; discriminate Hcmd
                   | injection Hd as <-;
                     destruct (bool_decide (frames_dir ∈ fs)) eqn:F1,
                              (bool_decide (enhanced_frames_dir ∈ fs)) eqn:F2,
                              (bool_decide (final_frames_dir ∈ fs)) eqn:F3;
                     cbn [negb In];
                     first [left; exact (bool_decide_eq_true_1 _ F1)
                           | left; exact (bool_decide_eq_true_1 _ F2)
                           | left; exact (bool_decide_eq_true_1 _ F3)
                           | right; tauto]]|]);
    destruct Hd.
Qed.

(** ** What the chain reports *)

Lemma decoded_texts_app (t1 t2 : list event) :
  decoded_texts (t1 ++ t2) = decoded_texts t1 ++ decoded_texts t2.
Proof.
  induction t1 as [|e t1 IH]; [reflexivity|].
  destruct e; cbn [app decoded_texts]; rewrite ?IH; reflexivity.
Qed.

Lemma decoded_texts_step_of (w : World) (dirs : list string)
    (cmd : list string) (fs : gset string) (t : list event) :
  step_of w dirs cmd fs t -> decoded_texts t = failure_text w cmd.
Proof.
  intros (a & s & f & ->). unfold step_trace, failure_text.
  rewrite decoded_texts_app.
  assert (Hguard : decoded_texts
            (flat_map (fun d => if bool_decide (d ∈ fs) then []
                                else [Makedirs d]) dirs) = []).
  { induction dirs as [|d dirs IH]; [reflexivity|]. cbn [flat_map].
    destruct (bool_decide (d ∈ fs)); cbn [app decoded_texts]; exact IH. }
  rewrite Hguard.
  destruct (returncode (exec w cmd) =? 0);
    [|destruct (utf8_decode (stderr (exec w cmd)))]; reflexivity.
Qed.

Lemma decoded_texts_prelude
    (w : World) (cfg : Config) (args : Args) (path : string) :
  decoded_texts (setup w cfg args path) = []
  /\ decoded_texts (prelude w cfg args path) = [].
Proof.
  unfold prelude, setup.
  destruct (xformers_available w), (seed args =? -1); split; reflexivity.
Qed.

(** X13.  Captured stderr is printed for the stages that fail and for no
    other: in a run that returns normally, the stderr texts printed are, in
    order, the decoded stderr of exactly those of the four stages that
    exited with a non-zero status. *)
Theorem stderr_printed_for_failed_stages_only
    (w : World) (cfg : Config) (args : Args) (fs : gset string) :
  res (main w cfg args fs) = Ok tt ->
  decoded_texts (trace (main w cfg args fs))
  = failure_text w (extract_command args)
    ++ failure_text w gfpgan_command
    ++ failure_text w codeformer_command
    ++ failure_text w encode_command.
Proof.
  intros Hok.
  apply main_returns_iff in Hok as (Hs & Ha & H1 & H2 & H3 & _).
  destruct (main_supported_run w cfg args fs Hs Ha) as (path & _ & E).
  rewrite E; cbn [trace]. rewrite decoded_texts_app.
  rewrite (proj2 (decoded_texts_prelude w cfg args path)).
  cbn [app decoded_texts].
  destruct (postprocess_run w args fs)
    as (t1 & t2 & t3 & t4 & S1 & S2 & S3 & S4 & Ep).
  rewrite Ep, H1, H2, H3; cbn [trace]. rewrite !decoded_texts_app.
  rewrite (decoded_texts_step_of _ _ _ _ _ S1),
          (decoded_texts_step_of _ _ _ _ _ S2),
          (decoded_texts_step_of _ _ _ _ _ S3),
          (decoded_texts_step_of _ _ _ _ _ S4).
  reflexivity.
Qed.




Lemma utf8_decode_ascii (bs : list byte) :
  ascii_only bs = true -> utf8_decode bs = Some (map Byte.to_N bs).
Proof.
  induction bs as [|b bs IH]; [reflexivity|].
  cbn [ascii_only forallb]. intros H. apply andb_true_iff in H as [Hb Hbs].
  cbn [utf8_decode map]. rewrite Hb. rewrite (IH Hbs). reflexivity.
Qed.

Lemma reported_ascii (r : CompletedProcess) :
  ascii_only (stderr r) = true -> reported r = true.
Proof.
  intros H. unfold reported. rewrite (utf8_decode_ascii _ H).
  rewrite bool_decide_eq_true_2 by eauto. apply orb_true_r.
Qed.

(** X15.  Tools that write only ASCII to stderr cannot trip the strict
    decoder: whatever their exit codes, the configuration and the
    arguments, [main] does not end with [UnicodeDecodeError]. *)
Theorem ascii_stderr_never_aborts
    (w : World) (cfg : Config) (args : Args) (fs : gset string) :
  (forall cmd,
      In cmd [extract_command args; gfpgan_command; codeformer_command;
              encode_command] ->
      ascii_only (stderr (exec w cmd)) = true) ->
  res (main w cfg args fs) <> Raise UnicodeDecodeError.
Proof.
  intros Hascii.
  destruct (supported cfg) eqn:Hs;
    [destruct (seed_accepted args) eqn:Ha|].
  - assert (Hok : res (main w cfg args fs) = Ok tt).
    { apply main_returns_iff. split; [exact Hs|]. split; [exact Ha|].
      repeat split; apply reported_ascii, Hascii; cbn [In]; auto. }
    rewrite Hok. discriminate.
  - destruct (main_stopped_early w cfg args fs (or_intror Ha))
      as (_ & _ & _ & _ & [E|E]); rewrite E; discriminate.
  - destruct (main_stopped_early w cfg args fs (or_introl Hs))
      as (_ & _ & _ & _ & [E|E]); rewrite E; discriminate.
Qed.

(** X16.  In every run, rejected, cut short or complete, the external
    programs started are an initial part of frame extraction, GFPGAN,
    CodeFormer and re-encoding in this order, each started at most once,
    and each has exited before [main] does anything else. *)
Theorem processes_sequential_in_every_run
    (w : World) (cfg : Config) (args : Args) (fs : gset string) :
  process_events (trace (main w cfg args fs)) `prefix_of` four_stages w args
  /\ blocking (trace (main w cfg args fs)) = true.
Proof.
  split; [|apply main_blocking].
  destruct (main_process_events_prefix w cfg args fs) as [rest Hrest].
  exists rest. exact Hrest.
Qed.

Lemma spawned_step_of (w : World) (dirs : list string) (cmd : list string)
    (fs : gset string) (t : list event) :
  step_of w dirs cmd fs t -> spawned t = [cmd].
Proof.
  intros (a & s & f & ->). unfold step_trace. rewrite spawned_app.
  assert (Hguard : spawned
            (flat_map (fun d => if bool_decide (d ∈ fs) then []
                                else [Makedirs d]) dirs) = []).
  { induction dirs as [|d dirs IH]; [reflexivity|]. cbn [flat_map].
    destruct (bool_decide (d ∈ fs)); cbn [app spawned]; exact IH. }
  rewrite Hguard.
  destruct (returncode (exec w cmd) =? 0);
    [|destruct (utf8_decode (stderr (exec w cmd)))]; reflexivity.
Qed.

(** X17.  Nothing is started before the pipeline has been invoked, and the
    first program started after it is ffmpeg reading the very file the
    pipeline was told to write ([video_out_path]) and writing the frames
    into [temp_frames]. *)
Theorem extraction_reads_pipeline_output
    (w : World) (cfg : Config) (args : Args) (fs : gset string)
    (pre : list event) (c : PipelineCall) (post : list event) :
  trace (main w cfg args fs) = pre ++ PipelineInvoked c :: post ->
  spawned pre = []
  /\ exists rest,
      spawned post
      = ["ffmpeg"; "-i"; call_video_out_path c; "temp_frames/frame_%04d.png"]
        :: rest.
Proof.
  intros E.
  assert (Hs : supported cfg = true /\ seed_accepted args = true).
  { apply (pipeline_invoked_iff_supported w cfg args fs).
    exists c. rewrite E. apply in_or_app. right. left. reflexivity. }
  destruct Hs as [Hs Ha].
  destruct (main_supported_run w cfg args fs Hs Ha) as (path & _ & E0).
  destruct (prelude_facts w cfg args path) as (_ & _ & Hinv & _).
  rewrite E0 in E; cbn [trace] in E.
  destruct (split_unique is_invocation _ _ _ Hinv
              (postprocess_no_invocation w args fs) pre _ post E eq_refl)
    as (-> & Hc & ->).
  injection Hc as ->. split.
  - unfold prelude, setup.
    destruct (xformers_available w), (seed args =? -1); reflexivity.
  - destruct (postprocess_run w args fs)
      as (t1 & t2 & t3 & t4 & S1 & _ & _ & _ & Ep).
    apply spawned_step_of in S1. rewrite Ep.
    destruct (reported (exec w (extract_command args)));
      [destruct (reported (exec w gfpgan_command));
       [destruct (reported (exec w codeformer_command))|]|];
      cbn [trace]; rewrite ?spawned_app, S1; eexists; reflexivity.
Qed.

(** ** [str.replace] in general *)

Lemma string_length_append (a b : string) :
  String.length (a +:+ b) = (String.length a + String.length b)%nat.
Proof. induction a as [|c a IH]; [reflexivity|]. simpl. rewrite IH. reflexivity. Qed.

Lemma prefix_length (a b : string) :
  String.prefix a b = true -> (String.length a <= String.length b)%nat.
Proof.
  revert b. induction a as [|c a IH]; intros b H; [simpl; lia|].
  destruct b as [|c' b]; [discriminate H|].
  simpl in H. destruct (ascii_dec c c'); [|discriminate H].
  simpl. apply IH in H. lia.
Qed.

Lemma replace_from_length (old new : string) :
  old <> EmptyString ->
  forall (s : string) (skip : nat),
    (String.length (replace_from old new skip s)
     + replacements_from old skip s * String.length old
     + Nat.min skip (String.length s)
     = String.length s + replacements_from old skip s * String.length new)%nat.
Proof.
  intros Hold. induction s as [|c s IH]; intros skip.
  - cbn [replace_from replacements_from String.length]. lia.
  - cbn [replace_from replacements_from]. destruct skip as [|k].
    + destruct (String.prefix old (String c s)) eqn:Hp.
      * apply prefix_length in Hp. cbn [String.length] in Hp |- *.
        rewrite string_length_append.
        specialize (IH (String.length old - 1)%nat).
        destruct old as [|c' old']; [contradiction|].
        cbn [String.length] in *. lia.
      * specialize (IH O). cbn [String.length]. lia.
    + specialize (IH k). cbn [String.length]. lia.
Qed.

Lemma replace_from_no_occurrence (old new : string) (s : string) :
  occurs old s = false -> replace_from old new 0 s = s.
Proof.
  induction s as [|c s IH]; [reflexivity|].
  cbn [occurs replace_from]. intros H. apply orb_false_iff in H as [Hp Hs].
  rewrite Hp, (IH Hs). reflexivity.
Qed.

Lemma occurs_replaced (old : string) (s : string) :
  old <> EmptyString ->
  occurs old s = true -> (1 <= replacements_from old 0 s)%nat.
Proof.
  intros Hold. induction s as [|c s IH]; cbn [occurs replacements_from].
  - destruct old; [contradiction | discriminate].
  - destruct (String.prefix old (String c s)); [lia|].
    cbn [orb]. exact IH.
Qed.

(** X18.  [str.replace] accounts for every character: with [n] the number
    of non-overlapping occurrences of a non-empty [old] it replaces, the
    result is as long as the input with [n] copies of [old] taken out and
    [n] copies of [new] put in; [n] is zero exactly when [old] does not
    occur, and then the input comes back unchanged. *)
Theorem str_replace_length (s old new : string) :
  old <> EmptyString ->
  (String.length (str_replace s old new)
   + replacements_from old 0 s * String.length old
   = String.length s + replacements_from old 0 s * String.length new)%nat
  /\ (replacements_from old 0 s = O <-> occurs old s = false)
  /\ (occurs old s = false -> str_replace s old new = s).
Proof.
  intros Hold.
  assert (Hrep : str_replace s old new = replace_from old new 0 s)
    by (unfold str_replace; destruct old; [contradiction | reflexivity]).
  rewrite Hrep. split; [|split].
  - pose proof (replace_from_length old new Hold s 0) as H. lia.
  - split.
    + intros Hn. destruct (occurs old s) eqn:Ho; [|reflexivity].
      pose proof (occurs_replaced old s Hold Ho). lia.
    + intros Ho. clear Hrep. induction s as [|c s IH]; [reflexivity|].
      cbn [occurs] in Ho. apply orb_false_iff in Ho as [Hp Hs].
      cbn [replacements_from]. rewrite Hp. exact (IH Hs).
  - apply replace_from_no_occurrence.
Qed.

(** X19.  The mask video gets a path of its own exactly when the output
    path contains [.mp4]: for an output path without [.mp4] the pipeline
    is handed the same path for the video and for its mask. *)
Theorem mask_path_is_out_path_iff
    (w : World) (cfg : Config) (args : Args) :
  call_video_mask_path (pipeline_call w cfg args)
  = call_video_out_path (pipeline_call w cfg args)
  <-> occurs ".mp4" (video_out_path args) = false.
Proof.
  cbn [pipeline_call call_video_mask_path call_video_out_path].
  unfold str_replace. split.
  - intros Heq. destruct (occurs ".mp4" (video_out_path args)) eqn:Ho;
      [|reflexivity].
    pose proof (occurs_replaced ".mp4" _ ltac:(discriminate) Ho) as Hn.
    pose proof (replace_from_length ".mp4" "_mask.mp4" ltac:(discriminate)
                  (video_out_path args) 0) as Hlen.
    rewrite Heq in Hlen. cbn [String.length] in Hlen. lia.
  - apply replace_from_no_occurrence.
Qed.

(** ** The further properties on sample inputs *)

Lemma parse_args_accepts_iff_witness :
  exists ns, parse_args (fun _ => None) (fun _ => None) sample_argv = Ok ns.
Proof.
  apply (proj2 (proj1 (parse_args_accepts_iff (fun _ => None) (fun _ => None)
                         sample_argv eq_refl))).
  split.
  - repeat constructor; intros a Ha; vm_compute in Ha; injection Ha as <-;
      vm_compute; eauto.
  - repeat constructor; apply (bool_decide_unpack _); vm_compute; exact I.
Defined.

Lemma main_returns_only_if_witness :
  supported (config_with (PInt 384)) = true
  /\ (seed sample_args = -1 \/ 0 <= seed sample_args < 2 ^ 32)
  /\ all_reported world_ok sample_args = true.
Proof.
  apply (main_returns_only_if world_ok (config_with (PInt 384)) sample_args ∅).
  vm_compute. reflexivity.
Defined.

Lemma last_occurrence_wins_witness :
  exists v,
    convert (fun _ => None) (fun _ => None) type_str "second.mp4" = Some v
    /\ (<["video_out_path" := PStr "second.mp4"]>
          (<["video_out_path" := PStr "video_out.mp4"]>
             (<["audio_path" := PStr "assets/demo.wav"]>
                (<["video_path" := PStr "assets/demo.mp4"]>
                   (<["inference_ckpt_path" :=
                        PStr "checkpoints/latentsync_unet.pt"]>
                      initial_namespace)))) : gmap string pyval)
       !! "video_out_path" = Some v.
Proof.
  apply (last_occurrence_wins (fun _ => None) (fun _ => None)
           {| option_string := "--video_out_path"; type_ := type_str;
              required := true; default := PNone |}
           "second.mp4" sample_argv []).
  - cbn [In parser]. tauto.
  - apply not_elem_of_nil.
  - reflexivity.
Defined.

Lemma rejected_command_line_after_bootstrap_witness :
  script (fun _ => None) (fun _ => None) (world_where false [] silent) true
    (tail sample_argv) ∅
  = Run (trace (bootstrap (world_where false [] silent) ∅)) ∅
      (Raise (SystemExit 2)).
Proof.
  apply (rejected_command_line_after_bootstrap (fun _ => None) (fun _ => None)
           (world_where false [] silent) (tail sample_argv) ∅ (SystemExit 2)).
  - vm_compute. reflexivity.
  - vm_compute. reflexivity.
Defined.

Lemma script_runs_main_on_loaded_config_witness :
  exists args,
    unet_config_path args = "configs/unet.yaml"
    /\ script (fun _ => None) (fun _ => None) world_ok true sample_argv
         {["CodeFormer"]}
       = Run (trace (bootstrap world_ok {["CodeFormer"]})
                ++ OmegaConfLoad (unet_config_path args)
                :: trace (main world_ok
                            (omegaconf_load world_ok (unet_config_path args))
                            args {["CodeFormer"]}))
           (fs_out (main world_ok
                      (omegaconf_load world_ok (unet_config_path args))
                      args {["CodeFormer"]}))
           (res (main world_ok
                   (omegaconf_load world_ok (unet_config_path args))
                   args {["CodeFormer"]})).
Proof.
  assert (Hparse :
      parse_args (fun _ => None) (fun _ => None) sample_argv
      = Ok (<["video_out_path" := PStr "video_out.mp4"]>
              (<["audio_path" := PStr "assets/demo.wav"]>
                 (<["video_path" := PStr "assets/demo.mp4"]>
                    (<["inference_ckpt_path" := PStr "checkpoints/latentsync_unet.pt"]>
                       initial_namespace)))))
    by reflexivity.
  assert (Hboot : res (bootstrap world_ok {["CodeFormer"]}) = Ok tt)
    by (vm_compute; reflexivity).
  destruct (script_runs_main_on_loaded_config (fun _ => None) (fun _ => None)
              world_ok sample_argv {["CodeFormer"]} _ Hboot Hparse)
    as (args & _ & Hdefault & Hrun).
  exists args. split.
  - apply Hdefault. apply (bool_decide_eq_false_1 _). vm_compute. reflexivity.
  - exact Hrun.
Defined.

Lemma one_dtype_throughout_witness :
  float16 = float16 <-> cuda_is_available world_ok = true
                        /\ 7 < cuda_capability_major world_ok.
Proof.
  apply (one_dtype_throughout world_ok (config_with (PInt 384)) sample_args ∅
           (UNetToDtype float16) float16).
  - vm_compute. repeat (first [left; reflexivity | right]).
  - reflexivity.
Defined.

Lemma encoder_unet_and_pipeline_agree_witness :
  call_width (pipeline_call world_ok (config_with (PInt 384)) sample_args)
  = call_height (pipeline_call world_ok (config_with (PInt 384)) sample_args).
Proof.
  refine (proj1 (encoder_unet_and_pipeline_agree world_ok
                   (config_with (PInt 384)) sample_args ∅ _ _)).
  vm_compute. do 14 right. left. reflexivity.
Defined.

Lemma non_numeric_dimension_rejected_witness :
  res (main world_ok (config_with (PStr "768")) sample_args ∅)
  = Raise (NotImplementedError "cross_attention_dim must be 768 or 384")
  /\ spawned (trace (main world_ok (config_with (PStr "768")) sample_args ∅))
     = [].
Proof.
  apply (non_numeric_dimension_rejected world_ok (config_with (PStr "768"))
           sample_args ∅); intros x; discriminate.
Defined.

Lemma directories_exist_when_tool_starts_witness :
  enhanced_frames_dir ∈ (∅ : gset string)
  \/ In enhanced_frames_dir
       (created (firstn 22 (trace (main world_ok (config_with (PInt 384))
                                     sample_args ∅)))).
Proof.
  apply (directories_exist_when_tool_starts world_ok (config_with (PInt 384))
           sample_args ∅ _
           (skipn 23 (trace (main world_ok (config_with (PInt 384))
                               sample_args ∅)))
           gfpgan_command enhanced_frames_dir).
  - vm_compute. reflexivity.
  - cbn [works_in In]. tauto.
Defined.

Lemma stderr_printed_for_failed_stages_only_witness :
  decoded_texts (trace (main world_decodable (config_with (PInt 384))
                          sample_args ∅))
  = [[233%N]].
Proof.
  refine (eq_trans
            (stderr_printed_for_failed_stages_only world_decodable
               (config_with (PInt 384)) sample_args ∅ _) _);
    vm_compute; reflexivity.
Defined.


Lemma ascii_stderr_never_aborts_witness :
  res (main (world_where true gfpgan_command (failed 2 [x6e; x6f]))
         (config_with (PInt 768)) sample_args ∅)
  <> Raise UnicodeDecodeError.
Proof.
  apply (ascii_stderr_never_aborts
           (world_where true gfpgan_command (failed 2 [x6e; x6f]))
           (config_with (PInt 768)) sample_args ∅).
  - intros cmd Hcmd. cbn [In] in Hcmd.
    repeat (destruct Hcmd as [<-|Hcmd]; [vm_compute; reflexivity|]).
    destruct Hcmd.
Defined.

Lemma extraction_reads_pipeline_output_witness :
  spawned (firstn 14 (trace (main world_ok (config_with (PInt 384))
                               sample_args ∅))) = []
  /\ exists rest,
      spawned (skipn 15 (trace (main world_ok (config_with (PInt 384))
                                  sample_args ∅)))
      = ["ffmpeg"; "-i";
         call_video_out_path
           (pipeline_call world_ok (config_with (PInt 384)) sample_args);
         "temp_frames/frame_%04d.png"] :: rest.
Proof.
  apply (extraction_reads_pipeline_output world_ok (config_with (PInt 384))
           sample_args ∅).
  vm_compute. reflexivity.
Defined.

Lemma str_replace_length_witness :
  (String.length (str_replace "a.mp4.mp4" ".mp4" "_mask.mp4")
   + replacements_from ".mp4" 0 "a.mp4.mp4" * 4
   = 9 + replacements_from ".mp4" 0 "a.mp4.mp4" * 9)%nat.
Proof.
  exact (proj1 (str_replace_length "a.mp4.mp4" ".mp4" "_mask.mp4"
                  ltac:(discriminate))).
Defined.

(** ** What the strict decoder returns *)

Lemma land_shifted_low (a b k : N) :
  (b < 2 ^ k)%N -> N.land (a * 2 ^ k) b = 0%N.
Proof.
  intros Hb. apply N.bits_inj_0. intros n. rewrite N.land_spec.
  destruct (N.lt_ge_cases n k) as [Hn|Hn].
  - rewrite N.mul_pow2_bits_low by exact Hn. reflexivity.
  - assert (Hbit : N.testbit b n = false).
    { destruct (N.eq_dec b 0%N) as [->|Hb0]; [apply N.bits_0|].
      apply N.bits_above_log2.
      apply N.lt_le_trans with k; [|exact Hn].
      apply N.log2_lt_pow2; [lia | exact Hb]. }
    rewrite Hbit. apply andb_false_r.
Qed.

Lemma lor_shiftl_low (a b k : N) :
  (b < 2 ^ k)%N -> N.lor (N.shiftl a k) b = (a * 2 ^ k + b)%N.
Proof.
  intros Hb. rewrite N.shiftl_mul_pow2.
  pose proof (land_shifted_low a b k Hb) as Hland.
  rewrite <- (N.lxor_lor _ _ Hland). symmetry.
  apply N.add_nocarry_lxor, Hland.
Qed.

Lemma low6_continuation (b : N) :
  continuation b = true -> low6 b = (b - 0x80)%N /\ (low6 b < 64)%N.
Proof.
  unfold continuation, low6. intros H.
  apply andb_true_iff in H as [Hlo Hhi].
  apply N.leb_le in Hlo, Hhi.
  change 0x3F%N with (N.ones 6). rewrite N.land_ones.
  change (2 ^ 6)%N with 64%N.
  assert (Hmod : (b mod 64 = b - 128)%N).
  { symmetry. apply (N.mod_unique b 64 2); lia. }
  rewrite Hmod. lia.
Qed.

Lemma land_lead (b base bits : N) :
  (base <= b < base + 2 ^ bits)%N -> (base mod 2 ^ bits = 0)%N ->
  N.land b (N.ones bits) = (b - base)%N.
Proof.
  intros Hb Hbase. rewrite N.land_ones.
  assert (Hpos : (2 ^ bits <> 0)%N) by (apply N.pow_nonzero; discriminate).
  symmetry. apply (N.mod_unique b (2 ^ bits) (base / 2 ^ bits)); [lia|].
  pose proof (N.div_mod base (2 ^ bits) Hpos) as Hdm.
  rewrite Hbase in Hdm. lia.
Qed.

Lemma scalar_two (b0 b1 : N) :
  (0xC2 <= b0 <= 0xDF)%N -> continuation b1 = true ->
  scalar_value (N.lor (N.shiftl (N.land b0 0x1F) 6) (low6 b1)).
Proof.
  intros H0 H1. destruct (low6_continuation b1 H1) as [E1 L1].
  rewrite lor_shiftl_low by exact L1.
  change 0x1F%N with (N.ones 5).
  rewrite (land_lead b0 0xC0 5);
    [ | change (2 ^ 5)%N with 32%N; lia | reflexivity ].
  change (2 ^ 6)%N with 64%N. unfold scalar_value. lia.
Qed.

Lemma scalar_three (b0 b1 b2 : N) :
  (0xE0 <= b0 <= 0xEF)%N ->
  continuation b1 = true -> continuation b2 = true ->
  negb ((b0 =? 0xED) && (0x9F <? b1))%N = true ->
  scalar_value (N.lor (N.shiftl (N.land b0 0x0F) 12)
                      (N.lor (N.shiftl (low6 b1) 6) (low6 b2))).
Proof.
  intros H0 H1 H2 Hs.
  destruct (low6_continuation b1 H1) as [E1 L1].
  destruct (low6_continuation b2 H2) as [E2 L2].
  assert (Hb1 : (0x80 <= b1 <= 0xBF)%N).
  { unfold continuation in H1. apply andb_true_iff in H1 as [Ha Hb].
    apply N.leb_le in Ha, Hb. lia. }
  assert (Hsur : (b0 = 0xED -> b1 <= 0x9F)%N).
  { intros ->. apply negb_true_iff in Hs. cbn [N.eqb Pos.eqb andb] in Hs.
    apply N.ltb_ge in Hs. exact Hs. }
  rewrite (lor_shiftl_low (low6 b1) (low6 b2) 6) by exact L2.
  change (2 ^ 6)%N with 64%N.
  rewrite lor_shiftl_low by (change (2 ^ 12)%N with 4096%N; lia).
  change 0x0F%N with (N.ones 4).
  rewrite (land_lead b0 0xE0 4);
    [ | change (2 ^ 4)%N with 16%N; lia | reflexivity ].
  change (2 ^ 12)%N with 4096%N. unfold scalar_value. lia.
Qed.

Lemma scalar_four (b0 b1 b2 b3 : N) :
  (0xF0 <= b0 <= 0xF4)%N ->
  continuation b1 = true -> continuation b2 = true -> continuation b3 = true ->
  negb ((b0 =? 0xF0) && (b1 <? 0x90))%N = true ->
  negb ((b0 =? 0xF4) && (0x8F <? b1))%N = true ->
  scalar_value (N.lor (N.shiftl (N.land b0 0x07) 18)
                      (N.lor (N.shiftl (low6 b1) 12)
                             (N.lor (N.shiftl (low6 b2) 6) (low6 b3)))).
Proof.
  intros H0 H1 H2 H3 Ho Hs.
  destruct (low6_continuation b1 H1) as [E1 L1].
  destruct (low6_continuation b2 H2) as [E2 L2].
  destruct (low6_continuation b3 H3) as [E3 L3].
  assert (Hb1 : (0x80 <= b1 <= 0xBF)%N).
  { unfold continuation in H1. apply andb_true_iff in H1 as [Ha Hb].
    apply N.leb_le in Ha, Hb. lia. }
  assert (Hmin : (b0 = 0xF0 -> 0x90 <= b1)%N).
  { intros ->. apply negb_true_iff in Ho. cbn [N.eqb Pos.eqb andb] in Ho.
    apply N.ltb_ge in Ho. exact Ho. }
  assert (Hmax : (b0 = 0xF4 -> b1 <= 0x8F)%N).
  { intros ->. apply negb_true_iff in Hs. cbn [N.eqb Pos.eqb andb] in Hs.
    apply N.ltb_ge in Hs. exact Hs. }
  rewrite (lor_shiftl_low (low6 b2) (low6 b3) 6) by exact L3.
  change (2 ^ 6)%N with 64%N.
  rewrite (lor_shiftl_low (low6 b1) _ 12)
    by (change (2 ^ 12)%N with 4096%N; lia).
  change (2 ^ 12)%N with 4096%N.
  rewrite lor_shiftl_low by (change (2 ^ 18)%N with 262144%N; lia).
  change 0x07%N with (N.ones 3).
  rewrite (land_lead b0 0xF0 3);
    [ | change (2 ^ 3)%N with 8%N; lia | reflexivity ].
  change (2 ^ 18)%N with 262144%N. unfold scalar_value. lia.
Qed.

Lemma utf8_decode_bounded (n : nat) :
  forall bs t,
    (length bs <= n)%nat -> utf8_decode bs = Some t ->
    Forall scalar_value t /\ (length t <= length bs)%nat.
Proof.
  induction n as [|n IH]; intros bs t Hn Hd.
  - destruct bs; [|cbn in Hn; lia]. injection Hd as <-. split; [constructor | cbn; lia].
  - destruct bs as [|c0 r0]; [injection Hd as <-; split; [constructor | cbn; lia]|].
    cbn [utf8_decode] in Hd. cbv zeta in Hd.
    cbn [length] in Hn |- *.
    destruct (Byte.to_N c0 <? 0x80)%N eqn:H1.
    { destruct (utf8_decode r0) as [t0|] eqn:Hr; [|discriminate Hd].
      injection Hd as <-. destruct (IH r0 t0 ltac:(lia) Hr) as [F L].
      apply N.ltb_lt in H1.
      split; [constructor; [unfold scalar_value; lia | exact F] | cbn; lia]. }
    destruct ((0xC2 <=? Byte.to_N c0) && (Byte.to_N c0 <=? 0xDF))%N eqn:H2.
    { destruct r0 as [|c1 r1]; [discriminate Hd|].
      destruct (continuation (Byte.to_N c1)) eqn:C1; [|discriminate Hd].
      destruct (utf8_decode r1) as [t1|] eqn:Hr; [|discriminate Hd].
      injection Hd as <-. cbn [length] in Hn |- *.
      destruct (IH r1 t1 ltac:(lia) Hr) as [F L].
      apply andb_true_iff in H2 as [Ha Hb]. apply N.leb_le in Ha, Hb.
      split; [constructor; [apply scalar_two; [lia | exact C1] | exact F] | lia]. }
    destruct ((0xE0 <=? Byte.to_N c0) && (Byte.to_N c0 <=? 0xEF))%N eqn:H3.
    { destruct r0 as [|c1 [|c2 r2]]; try discriminate Hd.
      destruct (continuation (Byte.to_N c1) && continuation (Byte.to_N c2)
                && negb ((Byte.to_N c0 =? 0xE0) && (Byte.to_N c1 <? 0xA0))%N
                && negb ((Byte.to_N c0 =? 0xED) && (0x9F <? Byte.to_N c1))%N)
        eqn:G; [|discriminate Hd].
      destruct (utf8_decode r2) as [t2|] eqn:Hr; [|discriminate Hd].
      injection Hd as <-. cbn [length] in Hn |- *.
      destruct (IH r2 t2 ltac:(lia) Hr) as [F L].
      apply andb_true_iff in G as [G Gs]. apply andb_true_iff in G as [G Go].
      apply andb_true_iff in G as [C1 C2].
      apply andb_true_iff in H3 as [Ha Hb]. apply N.leb_le in Ha, Hb.
      split; [constructor; [apply scalar_three; [lia | assumption ..] | exact F] | lia]. }
    destruct ((0xF0 <=? Byte.to_N c0) && (Byte.to_N c0 <=? 0xF4))%N eqn:H4;
      [|discriminate Hd].
    destruct r0 as [|c1 [|c2 [|c3 r3]]]; try discriminate Hd.
    destruct (continuation (Byte.to_N c1) && continuation (Byte.to_N c2)
              && continuation (Byte.to_N c3)
              && negb ((Byte.to_N c0 =? 0xF0) && (Byte.to_N c1 <? 0x90))%N
              && negb ((Byte.to_N c0 =? 0xF4) && (0x8F <? Byte.to_N c1))%N)
      eqn:G; [|discriminate Hd].
    destruct (utf8_decode r3) as [t3|] eqn:Hr; [|discriminate Hd].
    injection Hd as <-. cbn [length] in Hn |- *.
    destruct (IH r3 t3 ltac:(lia) Hr) as [F L].
    apply andb_true_iff in G as [G Gs]. apply andb_true_iff in G as [G Go].
    apply andb_true_iff in G as [G C3]. apply andb_true_iff in G as [C1 C2].
    apply andb_true_iff in H4 as [Ha Hb]. apply N.leb_le in Ha, Hb.
    split; [constructor; [apply scalar_four; [lia | assumption ..] | exact F] | lia].
Qed.

Lemma failure_text_scalar (w : World) (cmd : list string) :
  Forall (fun text =>
            Forall scalar_value text
            /\ (length text <= length (stderr (exec w cmd)))%nat)
         (failure_text w cmd).
Proof.
  unfold failure_text. destruct (returncode (exec w cmd) =? 0); [constructor|].
  destruct (utf8_decode (stderr (exec w cmd))) as [text|] eqn:Hd; [|constructor].
  constructor; [|constructor].
  exact (utf8_decode_bounded _ _ _ (le_n _) Hd).
Qed.

(** X20.  Whatever the tools write to stderr, every stderr text that a run
    of [main] prints is a sequence of Unicode scalar values (below 0x110000
    and outside the surrogate range), and has at most as many code points as
    the stderr of one of the four tools has bytes. *)
Theorem printed_stderr_is_well_formed
    (w : World) (cfg : Config) (args : Args) (fs : gset string) :
  Forall (fun text =>
            Forall scalar_value text
            /\ exists cmd,
                 In cmd [extract_command args; gfpgan_command;
                         codeformer_command; encode_command]
                 /\ (length text <= length (stderr (exec w cmd)))%nat)
         (decoded_texts (trace (main w cfg args fs))).
Proof.
  assert (Hstep : forall dirs cmd fs' t,
             In cmd [extract_command args; gfpgan_command;
                         codeformer_command; encode_command] ->
             step_of w dirs cmd fs' t ->
             Forall (fun text =>
                       Forall scalar_value text
                       /\ exists cmd,
                            In cmd [extract_command args; gfpgan_command;
                         codeformer_command; encode_command]
                            /\ (length text <= length (stderr (exec w cmd)))%nat)
                    (decoded_texts t)).
  { intros dirs cmd fs' t Hin Hs. rewrite (decoded_texts_step_of _ _ _ _ _ Hs).
    eapply List.Forall_impl; [|apply failure_text_scalar].
    intros text [F L]. split; [exact F | exists cmd; split; assumption]. }
  destruct (main_cases w cfg args fs)
    as [[_ E]|[(_ & _ & path & _ & E)|(_ & _ & path & _ & E)]];
    rewrite E; cbn [trace].
  - constructor.
  - rewrite (proj1 (decoded_texts_prelude w cfg args path)). constructor.
  - rewrite decoded_texts_app.
    rewrite (proj2 (decoded_texts_prelude w cfg args path)).
    cbn [app decoded_texts].
    destruct (postprocess_run w args fs)
      as (t1 & t2 & t3 & t4 & S1 & S2 & S3 & S4 & Ep).
    apply (Hstep _ _ _ _ (or_introl eq_refl)) in S1.
    apply (Hstep _ _ _ _ (or_intror (or_introl eq_refl))) in S2.
    apply (Hstep _ _ _ _ (or_intror (or_intror (or_introl eq_refl)))) in S3.
    apply (Hstep _ _ _ _
             (or_intror (or_intror (or_intror (or_introl eq_refl))))) in S4.
    rewrite Ep.
    destruct (reported (exec w (extract_command args))),
             (reported (exec w gfpgan_command)),
             (reported (exec w codeformer_command));
      cbn [trace]; rewrite ?decoded_texts_app; rewrite ?Forall_app; tauto.
Qed.
